(** * Traffic-to-route matching and duration estimation

    A shallow embedding of the matching and estimation core of the
    repository: [api.py] (relevance filter, aggregator, condition
    classification, recommendations) and [route_processor.py] (geometry
    handling and the spatial matcher), followed by the properties proved
    of them.

    Conventions of the embedding.
    - Python floats are idealised as exact rationals ([Q]); rounding,
      overflow and NaN are outside the model.  What the model keeps of
      Python's arithmetic is partiality: [x / y] raises
      [ZeroDivisionError] when [y] is zero.  The adjusted duration is
      also given on binary64 floats, in module [Float64], where
      overflow matters to a property.
    - A function that can raise returns an [outcome]; [Ok] is a normal
      return and [Raise] an exception leaving the function.
    - JSON documents are taken at the types the routing-service and
      traffic-feed schemas give their fields; a key that the source
      reads with [.get(key, default)] or tests with [in] is an [option].
    - Strings are byte strings; [.lower()] is ASCII lower-casing. *)

From Corelib Require PrimFloat.
From Stdlib Require Import String Ascii DecimalString.
From Stdlib Require Import QArith Qabs Qminmax Lqa Lia.
From Stdlib Require Import List Bool Arith.
From Stdlib Require Import Sorting.Sorted Sorting.Permutation.
Import ListNotations.

Local Open Scope Q_scope.

(** ** Python primitives *)

Module Py.

Inductive exn : Type :=
| ZeroDivisionError
| TypeError
| ValueError
| IndexError
| OperationalError.

Inductive outcome (A : Type) : Type :=
| Ok (a : A)
| Raise (e : exn).
Arguments Ok {A} a.
Arguments Raise {A} e.

Definition bind {A B : Type} (m : outcome A) (k : A -> outcome B) : outcome B :=
  match m with
  | Ok a => k a
  | Raise e => Raise e
  end.

Notation "x <- m ;; k" := (bind m (fun x => k))
  (at level 61, m at next level, right associativity).

(** [a < b] and [a > b] on numbers. *)
Definition Qlt_bool (a b : Q) : bool := negb (Qle_bool b a).

(** True division [x / y]. *)
Definition truediv (x y : Q) : outcome Q :=
  if Qeq_bool y 0 then Raise ZeroDivisionError else Ok (x / y).

(** [sum(xs)], [len(xs)] as a number, [min(xs)] and [max(xs)]; the last
    two are only called on non-empty lists. *)
Definition sum (xs : list Q) : Q := fold_left Qplus xs 0.

Definition len {A : Type} (xs : list A) : Q := inject_Z (Z.of_nat (length xs)).

Definition min (xs : list Q) : Q :=
  match xs with
  | [] => 0
  | x :: xs' => fold_left (fun m y => if Qlt_bool y m then y else m) xs' x
  end.

Definition max (xs : list Q) : Q :=
  match xs with
  | [] => 0
  | x :: xs' => fold_left (fun m y => if Qlt_bool m y then y else m) xs' x
  end.

(** [s.lower()] on strings of ASCII characters: the letters A to Z are
    lower-cased.  [str.lower()] also lower-cases letters outside ASCII,
    which stay as they are here; the properties below hold for road
    names written in ASCII. *)
Definition lower_ascii (c : ascii) : ascii :=
  let n := nat_of_ascii c in
  if ((65 <=? n) && (n <=? 90))%nat then ascii_of_nat (n + 32) else c.

Fixpoint lower (s : string) : string :=
  match s with
  | EmptyString => EmptyString
  | String c s' => String (lower_ascii c) (lower s')
  end.

(** [needle in haystack] on strings. *)
Fixpoint contains (needle haystack : string) : bool :=
  String.prefix needle haystack
  || match haystack with
     | EmptyString => false
     | String _ rest => contains needle rest
     end.

(** Truthiness of a string and of a list. *)
Definition truthy_str (s : string) : bool :=
  match s with EmptyString => false | _ => true end.

Definition truthy_list {A : Type} (l : list A) : bool :=
  match l with [] => false | _ => true end.

End Py.

Import Py.

(** ** Data model *)

Module Model.

(** A value of the traffic feed that the matcher passes to [float()]:
    [Numeric q] is a number, or a numeric string, denoting [q];
    [NonNumeric] is a value [float()] rejects. *)
Inductive feed_number : Type :=
| Numeric (q : Q)
| NonNumeric.

(** One reading of the traffic feed.  [None] is an absent key. *)
Record TrafficItem : Type := {
  linkId : option string;
  speed : option feed_number;
  travelTime : option feed_number;
  roadName : option string;
  createdDate : option string
}.

(** An entry of [matched_data], as [match_traffic_to_route] appends it. *)
Record MatchedSegment : Type := {
  link_id : string;
  start_lng : Q;
  start_lat : Q;
  end_lng : Q;
  end_lat : Q;
  length_m : Q;
  distance_to_route_m : Q;
  current_speed : Q;
  travel_time : Q;
  road_name : string;
  created_date : string;
  api_data : TrafficItem
}.

(** The route document: an OSRM route object, possibly carrying the
    [result[0].routes[0].legs] wrapper as well. *)
Record Step : Type := { name : option string }.
Record Leg : Type := { steps : option (list Step) }.
Record Route : Type := { route_legs : option (list Leg) }.
Record ResultItem : Type := { routes : option (list Route) }.

Record RouteData : Type := {
  duration : Q;
  distance : Q;
  legs : option (list Leg);
  result : option (list ResultItem)
}.

(** An element of [result['matched_traffic']]; the source guards its
    loop with [isinstance(match, dict)]. *)
Inductive match_entry : Type :=
| Dict (m : MatchedSegment)
| NotDict.

(** The analysis result produced by the monitor. *)
Record AnalysisResult : Type := {
  route_data : RouteData;
  matched_traffic : list match_entry
}.

End Model.

Import Model.

(** ** [api.py]: relevance filter, aggregator, classification, advice *)

Module Api.

Local Open Scope string_scope.
Local Open Scope list_scope.

(** [road_names.add(step_name)] on the set of names, kept as a list
    without duplicates.  The order in which [list(road_names)] lists
    the set is unspecified in Python; the functions below test the
    list for emptiness and with [any] only. *)
Definition road_names_add (step_name : string) (road_names : list string)
  : list string :=
  if existsb (String.eqb step_name) road_names
  then road_names
  else road_names ++ [step_name].

Definition add_step_names (road_names : list string) (leg_steps : list Step)
  : list string :=
  fold_left
    (fun road_names step =>
       let step_name := match name step with Some n => n | None => "" end in
       if truthy_str step_name
          && negb (step_name =? "unnamed")
          && negb (step_name =? "")
       then road_names_add step_name road_names
       else road_names)
    leg_steps road_names.

Definition add_leg_names (road_names : list string) (legs : list Leg)
  : list string :=
  fold_left
    (fun road_names leg =>
       match steps leg with
       | Some leg_steps => add_step_names road_names leg_steps
       | None => road_names
       end)
    legs road_names.

Definition _extract_route_roads (route_data : RouteData) : list string :=
  let road_names := [] in
  (* direct legs access *)
  let road_names :=
    match legs route_data with
    | Some legs => add_leg_names road_names legs
    | None => road_names
    end in
  (* nested structure result[0].routes[0].legs *)
  let road_names :=
    match result route_data with
    | Some (result_item :: _) =>
        match routes result_item with
        | Some (route :: _) =>
            match route_legs route with
            | Some legs => add_leg_names road_names legs
            | None => road_names
            end
        | _ => road_names
        end
    | _ => road_names
    end in
  road_names.

(** The test of lines 415-422 on one matched segment. *)
Definition is_route_specific (route_roads : list string) (m : MatchedSegment)
  : bool :=
  let road_name := lower (road_name m) in
  if truthy_list route_roads then
    existsb
      (fun route_road =>
         contains (lower route_road) road_name
         || contains road_name (lower route_road))
      route_roads
  else
    (* no route roads extracted: use all traffic data *)
    true.

(** The loop of lines 408-422 building [route_specific_traffic]. *)
Fixpoint route_specific_traffic
  (route_roads : list string) (matched_traffic : list match_entry)
  : list MatchedSegment :=
  match matched_traffic with
  | [] => []
  | NotDict :: rest => route_specific_traffic route_roads rest
  | Dict m :: rest =>
      if is_route_specific route_roads m
      then m :: route_specific_traffic route_roads rest
      else route_specific_traffic route_roads rest
  end.

(** The relevant segments of an analysis result: the list that
    [_extract_traffic_adjusted_route] binds to [route_specific_traffic]. *)
Definition relevant (result : AnalysisResult) : list MatchedSegment :=
  route_specific_traffic
    (_extract_route_roads (route_data result)) (matched_traffic result).

Inductive coverage : Type :=
| no_relevant_data
| partial
| good.

(** The dictionary returned by [_extract_traffic_adjusted_route].  The
    keys that only one of its two branches sets are options. *)
Record TrafficAdjusted : Type := {
  duration_seconds : Q;
  distance_meters : Q;
  average_speed_kmh : Q;
  time_difference_seconds : Q;
  time_difference_percent : Q;
  traffic_segments : nat;
  total_traffic_segments_in_area : option nat;
  traffic_coverage : coverage;
  speed_range : option (Q * Q);
  note : option string
}.

Definition _extract_traffic_adjusted_route (result : option AnalysisResult)
  : outcome (option TrafficAdjusted) :=
  match result with
  | None => Ok None
  | Some result =>
      let route_data := route_data result in
      let matched_traffic := matched_traffic result in
      let route_roads := _extract_route_roads route_data in
      let route_specific_traffic :=
        route_specific_traffic route_roads matched_traffic in
      match route_specific_traffic with
      | [] =>
          (* no relevant traffic data found *)
          km <- truediv (distance route_data) 1000 ;;
          hours <- truediv (duration route_data) 3600 ;;
          average_speed <- truediv km hours ;;
          Ok (Some {|
            duration_seconds := duration route_data;
            distance_meters := distance route_data;
            average_speed_kmh := average_speed;
            time_difference_seconds := 0;
            time_difference_percent := 0;
            traffic_segments := 0;
            total_traffic_segments_in_area := None;
            traffic_coverage := no_relevant_data;
            speed_range := None;
            note := Some "No traffic data found for the specific route roads"
          |})
      | _ :: _ =>
          let traffic_speeds := map current_speed route_specific_traffic in
          avg_traffic_speed <-
            truediv (Py.sum traffic_speeds) (len traffic_speeds) ;;
          route_distance_km <- truediv (distance route_data) 1000 ;;
          traffic_duration <-
            (if Qlt_bool 0 avg_traffic_speed
             then q <- truediv route_distance_km avg_traffic_speed ;;
                  Ok (q * 3600)%Q
             else Ok (duration route_data)) ;;
          percent <-
            (if Qlt_bool 0 (duration route_data)
             then q <- truediv (traffic_duration - duration route_data)%Q
                               (duration route_data) ;;
                  Ok (q * 100)%Q
             else Ok 0%Q) ;;
          Ok (Some {|
            duration_seconds := traffic_duration;
            distance_meters := distance route_data;
            average_speed_kmh := avg_traffic_speed;
            time_difference_seconds :=
              (traffic_duration - duration route_data)%Q;
            time_difference_percent := percent;
            traffic_segments := List.length route_specific_traffic;
            total_traffic_segments_in_area :=
              Some (List.length matched_traffic);
            traffic_coverage :=
              if (List.length route_specific_traffic
                  <? List.length matched_traffic)%nat
              then partial else good;
            speed_range :=
              Some (Py.min traffic_speeds, Py.max traffic_speeds);
            note := None
          |})
      end
  end.

Inductive condition : Type :=
| no_data
| heavy_delay
| moderate_delay
| faster_than_expected
| normal.

(** The if-chain of lines 577-584. *)
Definition condition_of (time_diff_pct : Q) : condition :=
  if Qlt_bool 20 time_diff_pct then heavy_delay
  else if Qlt_bool 10 time_diff_pct then moderate_delay
  else if Qlt_bool time_diff_pct (-10) then faster_than_expected
  else normal.

Record SimpleRoute : Type := {
  simple_duration_seconds : Q;
  simple_time_difference_seconds : Q;
  time_difference_minutes : option Q;
  traffic_condition : condition;
  simple_average_speed_kmh : option Q
}.

Definition _extract_traffic_adjusted_route_simple
  (result : option AnalysisResult) : outcome SimpleRoute :=
  traffic_adjusted <- _extract_traffic_adjusted_route result ;;
  match traffic_adjusted with
  | None =>
      match result with
      | None => Raise TypeError
      | Some result =>
          Ok {| simple_duration_seconds := duration (route_data result);
                simple_time_difference_seconds := 0;
                time_difference_minutes := None;
                traffic_condition := no_data;
                simple_average_speed_kmh := None |}
      end
  | Some traffic_adjusted =>
      let time_diff_pct := time_difference_percent traffic_adjusted in
      let condition := condition_of time_diff_pct in
      minutes <- truediv (time_difference_seconds traffic_adjusted) 60 ;;
      Ok {| simple_duration_seconds := duration_seconds traffic_adjusted;
            simple_time_difference_seconds :=
              time_difference_seconds traffic_adjusted;
            time_difference_minutes := Some minutes;
            traffic_condition := condition;
            simple_average_speed_kmh :=
              Some (average_speed_kmh traffic_adjusted) |}
  end.

(** An entry of the recommendation list.  [Advice s] is the literal
    string [s]; the three formatted strings carry the value that the
    source formats into them. *)
Inductive recommendation : Type :=
| Advice (s : string)
(* f"Expect {time_diff_minutes:.1f} minutes longer than planned due to traffic" *)
| ExpectLonger (time_diff_minutes : Q)
(* f"Traffic is flowing well - you may arrive {abs(time_diff_minutes):.1f} minutes earlier" *)
| ArriveEarlier (minutes : Q)
(* f"Limited coverage: only {traffic_segments} relevant traffic segments found" *)
| LimitedCoverage (traffic_segments : nat).

Definition of_nat (n : nat) : Q := inject_Z (Z.of_nat n).

Definition _generate_recommendations (result : option AnalysisResult)
  : outcome (list recommendation) :=
  match result with
  | None => Ok [Advice "Unable to analyze traffic for this route"]
  | Some _ =>
      let recommendations : list recommendation := [] in
      traffic_adjusted <- _extract_traffic_adjusted_route result ;;
      match traffic_adjusted with
      | None => Ok [Advice "No traffic data available for this specific route"]
      | Some traffic_adjusted =>
          match traffic_coverage traffic_adjusted with
          | no_relevant_data =>
              Ok (recommendations ++
                  [Advice "No traffic data available for the specific roads on this route";
                   Advice "Route uses local roads that may not be monitored by traffic systems";
                   Advice "Use original route time estimate"])
          | _ =>
              time_diff_minutes <-
                truediv (time_difference_seconds traffic_adjusted) 60 ;;
              let traffic_segments := traffic_segments traffic_adjusted in
              let recommendations :=
                recommendations ++
                (if (traffic_segments =? 0)%nat then
                   [Advice "Limited traffic data available for this route";
                    Advice "Use original route time estimate with caution"]
                 else if Qlt_bool 5 time_diff_minutes then
                   [ExpectLonger time_diff_minutes;
                    Advice "Consider departing earlier or finding an alternative route"]
                 else if Qlt_bool time_diff_minutes (-2) then
                   [ArriveEarlier (Qabs time_diff_minutes)]
                 else
                   [Advice "Current traffic conditions are close to normal expectations"]) in
              let recommendations :=
                if (0 <? traffic_segments)%nat then
                  let avg_speed := average_speed_kmh traffic_adjusted in
                  let recommendations :=
                    recommendations ++
                    (if Qlt_bool avg_speed 20 then
                       [Advice "Heavy traffic detected on monitored segments"]
                     else if Qlt_bool avg_speed 30 then
                       [Advice "Moderate traffic on monitored segments"]
                     else
                       [Advice "Good traffic flow on monitored segments"]) in
                  let total_segments :=
                    match total_traffic_segments_in_area traffic_adjusted with
                    | Some n => n
                    | None => 0%nat
                    end in
                  if Qlt_bool (of_nat traffic_segments)
                              (of_nat total_segments * (1 # 10))%Q
                  then recommendations ++ [LimitedCoverage traffic_segments]
                  else recommendations
                else recommendations in
              Ok recommendations
          end
      end
  end.

End Api.

(** ** [route_processor.py]: geometry handling and the spatial matcher *)

Module RouteProcessor.

Local Open Scope string_scope.
Local Open Scope list_scope.

(** A coordinate is a JSON array of numbers, [lng, lat, ...]. *)
Definition coord : Type := list Q.

(** [route_geometry] is an encoded polyline string or a GeoJSON object,
    whose [coordinates] key may be absent. *)
Inductive route_geometry : Type :=
| Encoded (encoded_polyline : string)
| GeoJSON (coordinates : option (list coord)).

(** The traffic-feed document: readings under [body.items] or [data]. *)
Record TrafficData : Type := {
  body_items : option (list TrafficItem);
  data : option (list TrafficItem)
}.

(** The text [LINESTRING(x1 y1, x2 y2, ...)], kept as its points. *)
Definition linestring : Type := list (Q * Q).

Definition _coords_to_linestring_wkt (coords : list coord)
  : option linestring :=
  if negb (truthy_list coords) || (List.length coords <? 2)%nat then None
  else
    let coord_pairs :=
      flat_map
        (fun coord =>
           match coord with
           | x :: y :: _ => [(x, y)]
           | _ => []
           end)
        coords in
    if (List.length coord_pairs <? 2)%nat then None
    else Some coord_pairs.

(** "For now, return empty array". *)
Definition _decode_polyline_simple (encoded_polyline : string) : list coord :=
  [].

(** The routing-service response passed to [calculate_updated_route],
    and the dictionary it returns. *)
Record OsrmRoute : Type := { osrm_geometry : option route_geometry }.
Record OsrmResponse : Type := { osrm_routes : list OsrmRoute }.

Record RouteMetrics : Type := {
  matched_segments : nat;
  avg_speed_kmh : Q;
  total_length_m : Q;
  estimated_time_s : Q
}.

Record UpdatedRoute : Type := {
  updated_original_route : OsrmResponse;
  updated_matched_traffic : list MatchedSegment;
  route_metrics : option RouteMetrics
}.

(** *** The network-geometry store *)

(** A candidate query: the table it selects from and the column it
    compares with the link identifier. *)
Record table_query : Type := {
  table : string;
  id_column : string
}.

Definition table_queries : list table_query :=
  [ {| table := "moct_link"; id_column := "link_id" |};
    {| table := "moct_link_table"; id_column := "linkid" |};
    {| table := "links"; id_column := "link_id" |} ].

(** The seven columns every candidate selects. *)
Record LinkRow : Type := {
  row_link_id : string;
  row_start_lng : Q;
  row_start_lat : Q;
  row_end_lng : Q;
  row_end_lat : Q;
  row_length_m : Q;
  row_distance_to_route : Q
}.

(** What [cur.execute(query, args); cur.fetchone()] does: a row, no
    row ([None]), or [psycopg2.Error] raised. *)
Inductive fetched : Type :=
| Row (r : LinkRow)
| NoRow
| DbError.

(** The store as the matcher sees it.  [connect] is
    [psycopg2.connect] with [DB_CONFIG] followed by [conn.cursor()];
    [execute] runs one candidate with the arguments
    [(route_wkt, link_id, route_wkt, buffer_distance)] and may change
    the state of the session. *)
Record Database : Type := {
  cursor : Type;
  connect : outcome cursor;
  execute : cursor -> table_query -> option linestring -> string -> Q
            -> fetched * cursor
}.

Section Matcher.

Context (db : Database).

(** The loop over [table_queries] of lines 79-87. *)
Fixpoint first_row
  (cur : cursor db) (queries : list table_query)
  (route_wkt : option linestring) (link_id : string) (buffer_distance : Q)
  : option LinkRow * cursor db :=
  match queries with
  | [] => (None, cur)
  | query :: queries =>
      match execute db cur query route_wkt link_id buffer_distance with
      | (Row r, cur) => (Some r, cur)
      | (NoRow, cur) =>
          first_row cur queries route_wkt link_id buffer_distance
      | (DbError, cur) =>
          first_row cur queries route_wkt link_id buffer_distance
      end
  end.

(** [float(item.get(key, 0))]. *)
Definition float_of (v : option feed_number) : outcome Q :=
  match v with
  | None => Ok 0%Q
  | Some (Numeric q) => Ok q
  | Some NonNumeric => Raise ValueError
  end.

(** The dictionary appended at lines 90-103. *)
Definition matched_entry (link_id : string) (r : LinkRow) (item : TrafficItem)
  : outcome MatchedSegment :=
  current_speed <- float_of (speed item) ;;
  travel_time <- float_of (travelTime item) ;;
  Ok {| link_id := link_id;
        start_lng := row_start_lng r;
        start_lat := row_start_lat r;
        end_lng := row_end_lng r;
        end_lat := row_end_lat r;
        length_m := row_length_m r;
        distance_to_route_m := row_distance_to_route r;
        current_speed := current_speed;
        travel_time := travel_time;
        road_name := match roadName item with Some s => s | None => "" end;
        created_date :=
          match createdDate item with Some s => s | None => "" end;
        api_data := item |}.

(** One iteration of the loop over [traffic_items]: the segment it
    appends, if any. *)
Definition match_item
  (cur : cursor db) (route_wkt : option linestring) (buffer_distance : Q)
  (item : TrafficItem) : option MatchedSegment * cursor db :=
  match linkId item with
  | None => (None, cur)
  | Some EmptyString => (None, cur)
  | Some link_id =>
      let (result, cur) :=
        first_row cur table_queries route_wkt link_id buffer_distance in
      match result with
      | Some r =>
          match matched_entry link_id r item with
          | Ok entry => (Some entry, cur)
          | Raise _ => (None, cur)   (* except Exception: continue *)
          end
      | None => (None, cur)
      end
  end.

Fixpoint match_items
  (cur : cursor db) (route_wkt : option linestring) (buffer_distance : Q)
  (traffic_items : list TrafficItem) : list MatchedSegment * cursor db :=
  match traffic_items with
  | [] => ([], cur)
  | item :: traffic_items =>
      let (entry, cur) := match_item cur route_wkt buffer_distance item in
      let (matched_data, cur) :=
        match_items cur route_wkt buffer_distance traffic_items in
      (match entry with
       | Some entry => entry :: matched_data
       | None => matched_data
       end, cur)
  end.

(** [matched_data.sort(key=lambda x: x['distance_to_route_m'])].
    Python's sort is stable; a list has one stable sorted
    arrangement ([stable_sort_unique] below), so the insertion
    sort that computes it here stands for any stable algorithm. *)
Fixpoint insert_by_distance (x : MatchedSegment) (l : list MatchedSegment)
  : list MatchedSegment :=
  match l with
  | [] => [x]
  | y :: l' =>
      if Qle_bool (distance_to_route_m x) (distance_to_route_m y)
      then x :: y :: l'
      else y :: insert_by_distance x l'
  end.

Definition sort_by_distance (l : list MatchedSegment) : list MatchedSegment :=
  fold_right insert_by_distance [] l.

Definition traffic_items_of (traffic_data : TrafficData) : list TrafficItem :=
  match body_items traffic_data with
  | Some items => items
  | None =>
      match data traffic_data with
      | Some items => items
      | None => []
      end
  end.

Definition route_coords_of (route_geometry : route_geometry) : list coord :=
  match route_geometry with
  | Encoded encoded_polyline => _decode_polyline_simple encoded_polyline
  | GeoJSON (Some coordinates) => coordinates
  | GeoJSON None => []
  end.

Definition match_traffic_to_route
  (route_geometry : route_geometry) (traffic_data : TrafficData)
  (buffer_distance : Q) : outcome (list MatchedSegment) :=
  cur <- connect db ;;
  let traffic_items := traffic_items_of traffic_data in
  if negb (truthy_list traffic_items) then
    (* "No traffic items found in API response" *)
    Ok []
  else
    let route_coords := route_coords_of route_geometry in
    if negb (truthy_list route_coords) then
      (* "No route coordinates available" *)
      Ok []
    else
      let route_wkt := _coords_to_linestring_wkt route_coords in
      let (matched_data, _) :=
        match_items cur route_wkt buffer_distance traffic_items in
      Ok (sort_by_distance matched_data).

(** The loop of lines 253-256 accumulating [estimated_time]. *)
Fixpoint estimate_time (matched_traffic : list MatchedSegment)
  (estimated_time : Q) : outcome Q :=
  match matched_traffic with
  | [] => Ok estimated_time
  | link :: matched_traffic =>
      if Qlt_bool 0 (current_speed link) then
        km <- truediv (length_m link) 1000 ;;
        hours <- truediv km (current_speed link) ;;
        estimate_time matched_traffic (estimated_time + hours * 3600)%Q
      else estimate_time matched_traffic estimated_time
  end.

(** [calculate_updated_route], which matches with the default buffer
    of 50 metres; the [timestamp] of its result is left out. *)
Definition calculate_updated_route
  (original_route : OsrmResponse) (traffic_data : TrafficData)
  : outcome UpdatedRoute :=
  route_geometry <-
    match osrm_routes original_route with
    | [] => Raise IndexError
    | route :: _ =>
        Ok (match osrm_geometry route with
            | Some g => g
            | None => Encoded ""
            end)
    end ;;
  matched_traffic <- match_traffic_to_route route_geometry traffic_data 50 ;;
  if truthy_list matched_traffic then
    let total_segments := List.length matched_traffic in
    avg_speed <-
      truediv (Py.sum (map current_speed matched_traffic))
              (inject_Z (Z.of_nat total_segments)) ;;
    let total_length := Py.sum (map length_m matched_traffic) in
    estimated_time <- estimate_time matched_traffic 0 ;;
    Ok {| updated_original_route := original_route;
          updated_matched_traffic := matched_traffic;
          route_metrics :=
            Some {| matched_segments := total_segments;
                    avg_speed_kmh := avg_speed;
                    total_length_m := total_length;
                    estimated_time_s := estimated_time |} |}
  else
    Ok {| updated_original_route := original_route;
          updated_matched_traffic := [];
          route_metrics := None |}.

End Matcher.

End RouteProcessor.

(** ** The adjusted duration on binary64 floats

    The modules above compute in exact rationals.  Lines 438-446 of
    [api.py], which compute the average speed and the adjusted
    duration, are embedded here once more on the floats Python
    computes with: the operations round, overflow to infinity and
    underflow as IEEE 754 binary64 does, and division raises
    [ZeroDivisionError] on a divisor equal to zero. *)

Module Float64.

Import PrimFloat.

Local Open Scope float_scope.

(** True division [x / y] on floats. *)
Definition truediv (x y : float) : outcome float :=
  if y =? 0 then Raise ZeroDivisionError else Ok (x / y).

(** [sum(xs)], adding from left to right, and [len(xs)] as a float. *)
Definition sum (xs : list float) : float := fold_left add xs 0.

Fixpoint len {A : Type} (xs : list A) : float :=
  match xs with
  | [] => 0
  | _ :: xs => len xs + 1
  end.

(** [traffic_duration] of the non-empty branch, from
    [route_data['distance']], [route_data['duration']] and
    [traffic_speeds]. *)
Definition traffic_duration
  (distance duration : float) (traffic_speeds : list float) : outcome float :=
  avg_traffic_speed <- truediv (sum traffic_speeds) (len traffic_speeds) ;;
  route_distance_km <- truediv distance 1000 ;;
  if 0 <? avg_traffic_speed
  then q <- truediv route_distance_km avg_traffic_speed ;;
       Ok (q * 3600)
  else Ok duration.

(** The float nearest to 1e-310, a speed a reading can carry. *)
Definition crawl : float := 0x0.012688b70e62bp-1022.

End Float64.

(** ** Vocabulary of the properties *)

Module Spec.

Import Api RouteProcessor.

Local Open Scope list_scope.

(** The mean of a list of numbers, as the specification words it. *)
Definition mean (xs : list Q) : Q :=
  fold_right Qplus 0 xs / of_nat (List.length xs).

(** The value the non-empty branch gives [traffic_duration]. *)
Definition traffic_duration_of (r : AnalysisResult) : Q :=
  let speeds := map current_speed (relevant r) in
  let avg := Py.sum speeds / len speeds in
  if Qlt_bool 0 avg
  then distance (route_data r) / 1000 / avg * 3600
  else duration (route_data r).

(** The advisory returned for [no_relevant_data]. *)
Definition no_relevant_data_advice : list recommendation :=
  [Advice "No traffic data available for the specific roads on this route";
   Advice "Route uses local roads that may not be monitored by traffic systems";
   Advice "Use original route time estimate"].

(** The order of the matched list: no farther from the route. *)
Definition by_distance (a b : MatchedSegment) : Prop :=
  distance_to_route_m a <= distance_to_route_m b.

(** The segments of a list that lie at distance [d] from the route. *)
Definition at_distance (d : Q) (l : list MatchedSegment) : list MatchedSegment :=
  filter (fun m => Qeq_bool (distance_to_route_m m) d) l.

(** [subseq l1 l2]: [l1] is [l2] with some elements left out. *)
Inductive subseq {A : Type} : list A -> list A -> Prop :=
| subseq_nil : subseq [] []
| subseq_skip (x : A) (l1 l2 : list A) : subseq l1 l2 -> subseq l1 (x :: l2)
| subseq_take (x : A) (l1 l2 : list A) :
    subseq l1 l2 -> subseq (x :: l1) (x :: l2).

(** The outcomes of running the candidates one after the other. *)
Fixpoint attempts
  (db : Database) (cur : cursor db) (queries : list table_query)
  (route_wkt : option linestring) (link_id : string) (buffer_distance : Q)
  : list fetched :=
  match queries with
  | [] => []
  | query :: queries =>
      let (f, cur) := execute db cur query route_wkt link_id buffer_distance in
      f :: attempts db cur queries route_wkt link_id buffer_distance
  end.

(** The row of the first outcome that is a row. *)
Fixpoint first_yielding_row (outcomes : list fetched) : option LinkRow :=
  match outcomes with
  | [] => None
  | Row r :: _ => Some r
  | _ :: outcomes => first_yielding_row outcomes
  end.

(** The first outcome that is not an error: its row, if it has one. *)
Fixpoint first_without_error (outcomes : list fetched) : option LinkRow :=
  match outcomes with
  | [] => None
  | DbError :: outcomes => first_without_error outcomes
  | Row r :: _ => Some r
  | NoRow :: _ => None
  end.

End Spec.

Import Spec.

(** ** Sample inputs *)

Module Samples.

Import Api RouteProcessor.

Local Open Scope list_scope.

(** A matched segment with the given speed, distance to the route and
    road name. *)
Definition segment (speed_kmh distance_m : Q) (road : string) : MatchedSegment :=
  {| link_id := "1000"; start_lng := 0; start_lat := 0; end_lng := 0;
     end_lat := 0; length_m := 100; distance_to_route_m := distance_m;
     current_speed := speed_kmh; travel_time := 0; road_name := road;
     created_date := "";
     api_data := {| linkId := Some "1000"%string;
                    speed := Some (Numeric speed_kmh);
                    travelTime := None; roadName := Some road;
                    createdDate := None |} |}.

(** An analysis result for a route whose steps carry no road name. *)
Definition analysis (duration_s distance_m : Q) (matched : list MatchedSegment)
  : AnalysisResult :=
  {| route_data := {| duration := duration_s; distance := distance_m;
                      legs := None; result := None |};
     matched_traffic := map Dict matched |}.

(** A route from a point to itself: no duration, no length, no traffic. *)
Definition point_route : AnalysisResult := analysis 0 0 [].

(** A route with no traffic reading near it. *)
Definition quiet_route : AnalysisResult := analysis 600 (97037 # 10) [].

(** 600 s and 9703.7 m planned, two segments at 30 and 50 km/h. *)
Definition busy_route : AnalysisResult :=
  analysis 600 (97037 # 10) [segment 30 5 "A"; segment 50 7 "B"].

(** 100 s and 1000 m planned, one segment at 30 km/h: 120 s adjusted. *)
Definition slow_route : AnalysisResult :=
  analysis 100 1000 [segment 30 5 "A"].

(** A route whose steps name one road, twice, next to an unnamed step
    and a step without a name. *)
Definition named_route_data : RouteData :=
  {| duration := 600;
     distance := 97037 # 10;
     legs :=
       Some [ {| steps := Some [ {| name := Some "Gangnam-daero"%string |};
                                 {| name := Some "unnamed"%string |};
                                 {| name := None |};
                                 {| name := Some "Gangnam-daero"%string |} ] |};
              {| steps := None |} ];
     result := None |}.

(** Traffic was matched near that route, on another road only. *)
Definition unrelated_route : AnalysisResult :=
  {| route_data := named_route_data;
     matched_traffic := [Dict (segment 30 5 "Olympic-daero"); NotDict] |}.

(** Traffic was matched on another road and on a lane of the route's. *)
Definition named_route : AnalysisResult :=
  {| route_data := named_route_data;
     matched_traffic :=
       [Dict (segment 30 5 "Olympic-daero");
        Dict (segment 45 2 "GANGNAM-DAERO 12-gil")] |}.

Definition link_row (id : string) (distance_m : Q) : LinkRow :=
  {| row_link_id := id;
     row_start_lng := 1268 # 10; row_start_lat := 375 # 10;
     row_end_lng := 1269 # 10; row_end_lat := 376 # 10;
     row_length_m := 100; row_distance_to_route := distance_m |}.

(** A sample store.  Its session counts the statements executed.  All
    three tables exist, so no statement fails: [moct_link] holds links
    B and D, [moct_link_table] holds link A and [links] is empty; a
    null route line selects no row. *)
Definition sample_store : Database :=
  {| cursor := nat;
     connect := Ok 0%nat;
     execute := fun cur query route_wkt link_id _ =>
       (match route_wkt with
        | None => NoRow
        | Some _ =>
            if (table query =? "moct_link")%string then
              if (link_id =? "B")%string then Row (link_row "B" 3)
              else if (link_id =? "D")%string then Row (link_row "D" 12)
              else NoRow
            else if (table query =? "moct_link_table")%string then
              if (link_id =? "A")%string then Row (link_row "A" 12)
              else NoRow
            else NoRow
        end, S cur) |}.

(** A store without the table [moct_link], which holds link A in
    [moct_link_table].  Its session is a transaction that is never
    rolled back: the state records that a statement has failed, and
    from then on every statement fails. *)
Definition missing_table_store : Database :=
  {| cursor := bool;
     connect := Ok false;
     execute := fun failed query route_wkt link_id _ =>
       if failed then (DbError, true)
       else if (table query =? "moct_link")%string then (DbError, true)
       else
         (match route_wkt with
          | None => NoRow
          | Some _ =>
              if (table query =? "moct_link_table")%string
                 && (link_id =? "A")%string
              then Row (link_row "A" 12)
              else NoRow
          end, false) |}.

(** A reading of the given link at the given speed. *)
Definition reading (id : string) (speed_kmh : Q) : TrafficItem :=
  {| linkId := Some id; speed := Some (Numeric speed_kmh);
     travelTime := None; roadName := None; createdDate := None |}.

(** Five readings: links A and B, one with an empty identifier, links
    C and D. *)
Definition sample_traffic : TrafficData :=
  {| body_items :=
       Some [reading "A" 30; reading "B" 50; reading "" 10;
             reading "C" 20; reading "D" 40];
     data := None |}.

(** Route geometries of two coordinates and of one. *)
Definition two_points : list coord :=
  [[1268 # 10; 375 # 10]; [1269 # 10; 376 # 10]].

Definition one_point : list coord := [[1268 # 10; 375 # 10]].

End Samples.

Import Samples.

(** ** Vocabulary of the further properties *)

Module Terms.

Import Api RouteProcessor.

Local Open Scope list_scope.

(** The names that the steps of a list of legs carry. *)
Definition step_names (legs : list Leg) : list string :=
  flat_map
    (fun leg =>
       match steps leg with
       | Some leg_steps =>
           flat_map
             (fun step => match name step with Some n => [n] | None => [] end)
             leg_steps
       | None => []
       end)
    legs.

(** The legs that [_extract_route_roads] visits: the direct ones, then
    those of [result[0].routes[0]]. *)
Definition visited_legs (route_data : RouteData) : list Leg :=
  match legs route_data with Some l => l | None => [] end
  ++ match result route_data with
     | Some (result_item :: _) =>
         match routes result_item with
         | Some (route :: _) =>
             match route_legs route with Some l => l | None => [] end
         | _ => []
         end
     | _ => []
     end.

(** A step name is kept when it is neither empty nor [unnamed]. *)
Definition kept (n : string) : Prop :=
  n <> EmptyString /\ n <> "unnamed"%string.

(** The dictionaries among the entries of a matched list. *)
Definition dicts (matched : list match_entry) : list MatchedSegment :=
  flat_map (fun e => match e with Dict m => [m] | NotDict => [] end) matched.

(** [n] occurs in [h]: some text, then [n], then some text. *)
Definition occurs_in (n h : string) : Prop :=
  exists before after, h = (before ++ n ++ after)%string.

(** The speeds of the relevant segments of an analysis result. *)
Definition relevant_speeds (r : AnalysisResult) : list Q :=
  map current_speed (relevant r).

(** The duration that the original-format function puts in its route:
    the planned one when no segment is relevant. *)
Definition adjusted_duration_of (r : AnalysisResult) : Q :=
  match relevant r with
  | [] => duration (route_data r)
  | _ :: _ => traffic_duration_of r
  end.

(** The coordinates that the line builder keeps: those with at least
    two components, cut to the first two. *)
Definition usable_points (coords : list coord) : list (Q * Q) :=
  flat_map
    (fun c => match c with x :: y :: _ => [(x, y)] | _ => [] end) coords.

(** The time a link takes at its reported speed, in seconds. *)
Definition link_seconds (link : MatchedSegment) : Q :=
  length_m link / 1000 / current_speed link * 3600.

(** The links that report a positive speed. *)
Definition moving (links : list MatchedSegment) : list MatchedSegment :=
  filter (fun link => Qlt_bool 0 (current_speed link)) links.

(** A matched segment carries the fields of its reading: the link
    identifier, not empty, the speed and travel time as [float()] gives
    them, and the road name and date with the empty default. *)
Definition from_reading (m : MatchedSegment) : Prop :=
  linkId (api_data m) = Some (link_id m)
  /\ link_id m <> EmptyString
  /\ float_of (speed (api_data m)) = Ok (current_speed m)
  /\ float_of (travelTime (api_data m)) = Ok (travel_time m)
  /\ road_name m
     = match roadName (api_data m) with Some s => s | None => EmptyString end
  /\ created_date m
     = match createdDate (api_data m) with
       | Some s => s
       | None => EmptyString
       end.

(** A matched segment carries the columns of a row that the store
    returned to one of the candidates for its link identifier. *)
Definition from_store
  (db : Database) (route_wkt : option linestring) (buffer_distance : Q)
  (m : MatchedSegment) : Prop :=
  exists query cur1 cur2 row,
    In query table_queries
    /\ execute db cur1 query route_wkt (link_id m) buffer_distance
       = (Row row, cur2)
    /\ start_lng m = row_start_lng row
    /\ start_lat m = row_start_lat row
    /\ end_lng m = row_end_lng row
    /\ end_lat m = row_end_lat row
    /\ length_m m = row_length_m row
    /\ distance_to_route_m m = row_distance_to_route row.

End Terms.

Import Terms.

(** ** [api.py]: the traffic-adjusted route in the original format *)

Module ApiFormat.

Import Api RouteProcessor.

Local Open Scope string_scope.
Local Open Scope list_scope.

Record FormatLocation : Type := {
  format_longitude : Q;
  format_latitude : Q
}.

Record FormatWaypoint : Type := {
  waypointType : string;
  waypoint_name : string;
  location : FormatLocation
}.

Record FormatLeg : Type := {
  summary : string;
  format_steps : list Step;
  leg_duration : Q;
  leg_distance : Q
}.

Record FormatRoute : Type := {
  weight_name : string;
  weight : Q;
  format_legs : list FormatLeg;
  format_geometry : route_geometry;
  format_duration : Q;
  format_distance : Q
}.

Record FormatResult : Type := {
  format_waypoints : list FormatWaypoint;
  format_routes : list FormatRoute;
  code : string
}.

(** [traffic_metadata], without its [timestamp]. *)
Record TrafficMetadata : Type := {
  original_duration : Q;
  traffic_adjusted_duration : Q;
  metadata_time_difference_seconds : Q;
  metadata_time_difference_percent : Q;
  traffic_segments_used : nat;
  metadata_total_traffic_segments_in_area : nat;
  route_roads_detected : list string;
  average_traffic_speed_kmh : Q
}.

Record OriginalFormat : Type := {
  resultCode : string;
  format_result : list FormatResult;
  traffic_metadata : TrafficMetadata
}.

(** [_generate_traffic_adjusted_route_original_format].  [geometry] is
    the [geometry] key of the route document, which [RouteData] does
    not carry: an encoded string or a GeoJSON object when present. *)
Definition _generate_traffic_adjusted_route_original_format
  (result : option AnalysisResult) (geometry : option route_geometry)
  : outcome (option OriginalFormat) :=
  match result with
  | None => Ok None
  | Some result =>
      let route_data := route_data result in
      let matched_traffic := matched_traffic result in
      let route_roads := _extract_route_roads route_data in
      let route_specific_traffic :=
        route_specific_traffic route_roads matched_traffic in
      traffic_duration <-
        (if truthy_list route_specific_traffic then
           let traffic_speeds := map current_speed route_specific_traffic in
           avg_traffic_speed <-
             truediv (Py.sum traffic_speeds) (len traffic_speeds) ;;
           route_distance_km <- truediv (distance route_data) 1000 ;;
           if Qlt_bool 0 avg_traffic_speed
           then q <- truediv route_distance_km avg_traffic_speed ;;
                Ok (q * 3600)%Q
           else Ok (duration route_data)
         else Ok (duration route_data)) ;;
      let traffic_adjusted_route_result :=
        [ {| format_waypoints :=
               [ {| waypointType := "break";
                    waypoint_name := "Start Location";
                    location := {| format_longitude := 0;
                                   format_latitude := 0 |} |};
                 {| waypointType := "last";
                    waypoint_name := "End Location";
                    location := {| format_longitude := 0;
                                   format_latitude := 0 |} |} ];
             format_routes :=
               [ {| weight_name := "";
                    weight := 0;
                    format_legs :=
                      [ {| summary := "Traffic-adjusted route";
                           format_steps := [];
                           leg_duration := traffic_duration;
                           leg_distance := distance route_data |} ];
                    format_geometry :=
                      match geometry with
                      | Some g => g
                      | None => Encoded ""
                      end;
                    format_duration := traffic_duration;
                    format_distance := distance route_data |} ];
             code := "Ok" |} ] in
      percent <-
        (if Qlt_bool 0 (duration route_data)
         then q <- truediv (traffic_duration - duration route_data)%Q
                           (duration route_data) ;;
              Ok (q * 100)%Q
         else Ok 0%Q) ;;
      average_speed <-
        (if truthy_list route_specific_traffic
         then truediv (Py.sum (map current_speed route_specific_traffic))
                      (len route_specific_traffic)
         else Ok 0%Q) ;;
      Ok (Some {|
        resultCode := "Ok";
        format_result := traffic_adjusted_route_result;
        traffic_metadata :=
          {| original_duration := duration route_data;
             traffic_adjusted_duration := traffic_duration;
             metadata_time_difference_seconds :=
               (traffic_duration - duration route_data)%Q;
             metadata_time_difference_percent := percent;
             traffic_segments_used := List.length route_specific_traffic;
             metadata_total_traffic_segments_in_area :=
               List.length matched_traffic;
             route_roads_detected := route_roads;
             average_traffic_speed_kmh := average_speed |}
      |})
  end.

End ApiFormat.

(** ** JSON documents and the operations Python has on them

    [_validate_route_data], [_convert_waypoints_to_route_data],
    [extract_waypoints_from_route_data] and
    [calculate_bbox_from_route_data] inspect documents of any shape, so
    they are embedded over untyped JSON values.  A dictionary is the
    list of its entries, each key once. *)

Module Json.

Local Open Scope string_scope.
Local Open Scope list_scope.

#[local] Unset Elimination Schemes.

Inductive json : Type :=
| JNull
| JBool (b : bool)
| JNum (q : Q)
| JStr (s : string)
| JList (l : list json)
| JDict (d : list (string * json)).

#[local] Set Elimination Schemes.

(** The exceptions of these functions: those of [Py.exn], and the two
    raised by a missing key and by [.get] on a value that has none. *)
Inductive error : Type :=
| Builtin (e : exn)
| KeyError
| AttributeError.

Inductive attempt (A : Type) : Type :=
| Done (a : A)
| Fail (e : error).
Arguments Done {A} a.
Arguments Fail {A} e.

Definition and_then {A B : Type} (m : attempt A) (k : A -> attempt B)
  : attempt B :=
  match m with
  | Done a => k a
  | Fail e => Fail e
  end.

Notation "x <~ m ;; k" := (and_then m (fun x => k))
  (at level 61, m at next level, right associativity).

Fixpoint lookup (key : string) (d : list (string * json)) : option json :=
  match d with
  | [] => None
  | (k, v) :: d => if (k =? key)%string then Some v else lookup key d
  end.

(** [key in v] for a string [key]: a key of a dictionary, an element of
    a list, a part of a string; other values are not iterable. *)
Definition py_in (key : string) (v : json) : attempt bool :=
  match v with
  | JDict d => Done (match lookup key d with Some _ => true | None => false end)
  | JList l =>
      Done (existsb
              (fun x => match x with JStr s => (s =? key)%string | _ => false end)
              l)
  | JStr s => Done (contains key s)
  | _ => Fail (Builtin TypeError)
  end.

(** [v[key]] for a string [key]. *)
Definition getitem (v : json) (key : string) : attempt json :=
  match v with
  | JDict d =>
      match lookup key d with
      | Some x => Done x
      | None => Fail KeyError
      end
  | _ => Fail (Builtin TypeError)
  end.

(** [v[0]] and [v[-1]]. *)
Definition getitem_first (v : json) : attempt json :=
  match v with
  | JList (x :: _) => Done x
  | JList [] => Fail (Builtin IndexError)
  | JStr (String c _) => Done (JStr (String c EmptyString))
  | JStr EmptyString => Fail (Builtin IndexError)
  | JDict _ => Fail KeyError
  | _ => Fail (Builtin TypeError)
  end.

Fixpoint last_char (c : ascii) (s : string) : ascii :=
  match s with
  | EmptyString => c
  | String c' s' => last_char c' s'
  end.

Definition getitem_last (v : json) : attempt json :=
  match v with
  | JList (x :: l) => Done (List.last l x)
  | JList [] => Fail (Builtin IndexError)
  | JStr (String c s) => Done (JStr (String (last_char c s) EmptyString))
  | JStr EmptyString => Fail (Builtin IndexError)
  | JDict _ => Fail KeyError
  | _ => Fail (Builtin TypeError)
  end.

(** [len(v)]. *)
Definition py_len (v : json) : attempt nat :=
  match v with
  | JList l => Done (List.length l)
  | JStr s => Done (String.length s)
  | JDict d => Done (List.length d)
  | _ => Fail (Builtin TypeError)
  end.

End Json.

(** ** [api.py] and [route_processor.py]: route documents *)

Module Documents.

Import Json RouteProcessor.

Local Open Scope string_scope.
Local Open Scope list_scope.

(** The checks of lines 306-313 on one waypoint. *)
Definition waypoint_valid (waypoint : json) : attempt bool :=
  match waypoint with
  | JDict _ =>
      has_location <~ py_in "location" waypoint ;;
      if negb has_location then Done false
      else
        location <~ getitem waypoint "location" ;;
        has_latitude <~ py_in "latitude" location ;;
        if negb has_latitude then Done false
        else
          has_longitude <~ py_in "longitude" location ;;
          if negb has_longitude then Done false else Done true
  | _ => Done false
  end.

(** The loop over the waypoints: it returns [False] at the first
    waypoint that fails. *)
Fixpoint waypoints_valid (waypoints : list json) : attempt bool :=
  match waypoints with
  | [] => Done true
  | waypoint :: waypoints =>
      valid <~ waypoint_valid waypoint ;;
      if valid then waypoints_valid waypoints else Done false
  end.

(** The body of the [try] of [_validate_route_data]. *)
Definition validate_route_data_body (route_data : json) : attempt bool :=
  match route_data with
  | JDict _ =>
      has_result <~ py_in "result" route_data ;;
      if negb has_result then Done false
      else
        results <~ getitem route_data "result" ;;
        match results with
        | JList result_items =>
            if (List.length result_items =? 0)%nat then Done false
            else
              result <~ getitem_first results ;;
              has_waypoints <~ py_in "waypoints" result ;;
              if negb has_waypoints then Done false
              else
                has_routes <~ py_in "routes" result ;;
                if negb has_routes then Done false
                else
                  waypoints <~ getitem result "waypoints" ;;
                  match waypoints with
                  | JList waypoint_items =>
                      if (List.length waypoint_items <? 2)%nat then Done false
                      else
                        valid <~ waypoints_valid waypoint_items ;;
                        if negb valid then Done false
                        else
                          routes <~ getitem result "routes" ;;
                          match routes with
                          | JList route_items =>
                              if (List.length route_items =? 0)%nat
                              then Done false
                              else
                                route <~ getitem_first routes ;;
                                match route with
                                | JDict _ =>
                                    has_duration <~ py_in "duration" route ;;
                                    if negb has_duration then Done false
                                    else
                                      has_distance <~
                                        py_in "distance" route ;;
                                      if negb has_distance then Done false
                                      else Done true
                                | _ => Done false
                                end
                          | _ => Done false
                          end
                  | _ => Done false
                  end
        | _ => Done false
        end
  | _ => Done false
  end.

(** [_validate_route_data]: any exception gives [False]. *)
Definition _validate_route_data (route_data : json) : bool :=
  match validate_route_data_body route_data with
  | Done valid => valid
  | Fail _ => false
  end.

(** [str(n)] for a natural number. *)
Definition decimal (n : nat) : string :=
  NilZero.string_of_uint (Nat.to_uint n).

(** One waypoint of [_convert_waypoints_to_route_data]; [count] is
    [len(waypoints)]. *)
Definition convert_waypoint (count i : nat) (wp : json) : attempt json :=
  let waypoint_type :=
    if (i =? 0)%nat then "break"
    else if (i =? count - 1)%nat then "last"
    else "via" in
  match wp with
  | JDict d =>
      let name :=
        match lookup "name" d with
        | Some v => v
        | None => JStr ("Point " ++ decimal (i + 1))
        end in
      longitude <~ getitem wp "longitude" ;;
      latitude <~ getitem wp "latitude" ;;
      Done (JDict [("waypointType", JStr waypoint_type);
                   ("name", name);
                   ("location",
                    JDict [("longitude", longitude);
                           ("latitude", latitude)])])
  | _ => Fail AttributeError
  end.

(** The loop over [enumerate(waypoints)], from index [i]. *)
Fixpoint convert_waypoints (count i : nat) (waypoints : list json)
  : attempt (list json) :=
  match waypoints with
  | [] => Done []
  | wp :: waypoints =>
      route_waypoint <~ convert_waypoint count i wp ;;
      route_waypoints <~ convert_waypoints count (S i) waypoints ;;
      Done (route_waypoint :: route_waypoints)
  end.

Definition _convert_waypoints_to_route_data (waypoints : list json)
  : attempt json :=
  route_waypoints <~ convert_waypoints (List.length waypoints) 0 waypoints ;;
  Done (JDict [("resultCode", JStr "Ok");
               ("result",
                JList [JDict [("waypoints", JList route_waypoints);
                              ("routes", JList [])]])]).

(** [extract_waypoints_from_route_data].  It returns the pair
    [([lat, lng], [lat, lng])] of the first and the last waypoint, or
    [(None, None)], which is [None] here. *)
Definition extract_waypoints_from_route_data (route_data : json)
  : attempt (option ((json * json) * (json * json))) :=
  has_result <~ py_in "result" route_data ;;
  non_empty <~
    (if has_result then
       results <~ getitem route_data "result" ;;
       n <~ py_len results ;;
       Done (0 <? n)%nat
     else Done false) ;;
  if non_empty then
    results <~ getitem route_data "result" ;;
    result <~ getitem_first results ;;
    waypoints <~ getitem result "waypoints" ;;
    n <~ py_len waypoints ;;
    if (2 <=? n)%nat then
      first <~ getitem_first waypoints ;;
      start <~ getitem first "location" ;;
      last <~ getitem_last waypoints ;;
      end_ <~ getitem last "location" ;;
      start_latitude <~ getitem start "latitude" ;;
      start_longitude <~ getitem start "longitude" ;;
      end_latitude <~ getitem end_ "latitude" ;;
      end_longitude <~ getitem end_ "longitude" ;;
      Done (Some ((start_latitude, start_longitude),
                  (end_latitude, end_longitude)))
    else Done None
  else Done None.

(** [coord[i]] on a coordinate. *)
Definition component (coord : coord) (i : nat) : attempt Q :=
  match nth_error coord i with
  | Some x => Done x
  | None => Fail (Builtin IndexError)
  end.

Fixpoint components (coordinates : list coord) (i : nat)
  : attempt (list Q) :=
  match coordinates with
  | [] => Done []
  | coord :: coordinates =>
      x <~ component coord i ;;
      xs <~ components coordinates i ;;
      Done (x :: xs)
  end.

(** [calculate_route_bbox]; it returns
    [(min_lng, max_lng, min_lat, max_lat)]. *)
Definition calculate_route_bbox (route_geometry : route_geometry) (buffer : Q)
  : attempt (Q * Q * Q * Q) :=
  coordinates <~
    match route_geometry with
    | GeoJSON (Some coordinates) => Done coordinates
    | GeoJSON None => Fail KeyError
    | Encoded _ => Fail (Builtin TypeError)
    end ;;
  lngs <~ components coordinates 0 ;;
  lats <~ components coordinates 1 ;;
  match lngs, lats with
  | _ :: _, _ :: _ =>
      Done (Py.min lngs - buffer, Py.max lngs + buffer,
            Py.min lats - buffer, Py.max lats + buffer)%Q
  | _, _ => Fail (Builtin ValueError)
  end.

(** "For now, extract coordinates from waypoints as fallback". *)
Definition _decode_polyline (encoded_polyline : json) : list coord := [].

Definition calculate_bbox_from_route_data (route_data : json) (buffer : Q)
  : attempt (option (Q * Q * Q * Q)) :=
  has_result <~ py_in "result" route_data ;;
  non_empty <~
    (if has_result then
       results <~ getitem route_data "result" ;;
       n <~ py_len results ;;
       Done (0 <? n)%nat
     else Done false) ;;
  if non_empty then
    results <~ getitem route_data "result" ;;
    result <~ getitem_first results ;;
    routes <~ getitem result "routes" ;;
    n <~ py_len routes ;;
    if (0 <? n)%nat then
      route <~ getitem_first routes ;;
      geometry <~ getitem route "geometry" ;;
      bbox <~ calculate_route_bbox
                (GeoJSON (Some (_decode_polyline geometry))) buffer ;;
      Done (Some bbox)
    else Done None
  else Done None.

End Documents.

(** ** Vocabulary of the properties of route documents *)

Module DocTerms.

Import Json Documents.

Local Open Scope string_scope.
Local Open Scope list_scope.

(** [key] is found in [v] by Python's [in]: as a key when [v] is a
    dictionary, as an element when it is a list, as a part when it is a
    string. *)
Definition mentions (key : string) (v : json) : Prop :=
  py_in key v = Done true.

(** A waypoint that validation accepts. *)
Definition waypoint_shape (waypoint : json) : Prop :=
  exists d location,
    waypoint = JDict d
    /\ lookup "location" d = Some location
    /\ mentions "latitude" location
    /\ mentions "longitude" location.

(** A route document that validation accepts. *)
Definition route_document_shape (route_data : json) : Prop :=
  exists d result others waypoints route routes,
    route_data = JDict d
    /\ lookup "result" d = Some (JList (JDict result :: others))
    /\ lookup "waypoints" result = Some (JList waypoints)
    /\ (2 <= List.length waypoints)%nat
    /\ Forall waypoint_shape waypoints
    /\ lookup "routes" result = Some (JList (JDict route :: routes))
    /\ lookup "duration" route <> None
    /\ lookup "distance" route <> None.

(** The converted waypoint [w] holds the coordinates of [wp]. *)
Definition located (wp w : json) : Prop :=
  exists longitude latitude,
    getitem wp "longitude" = Done longitude
    /\ getitem wp "latitude" = Done latitude
    /\ getitem w "location"
       = Done (JDict [("longitude", longitude); ("latitude", latitude)]).

(** A waypoint given by its coordinates. *)
Definition waypoint_at (latitude longitude : Q) : json :=
  JDict [("latitude", JNum latitude); ("longitude", JNum longitude)].

End DocTerms.

(** ** Sample documents *)

Module DocSamples.

Import Json Documents DocTerms.

Local Open Scope string_scope.
Local Open Scope list_scope.

(** Two waypoints as a caller posts them, the second without a name. *)
Definition posted_waypoints : list json :=
  [JDict [("latitude", JNum (375 # 10)); ("longitude", JNum (1268 # 10));
          ("name", JStr "Start")];
   JDict [("latitude", JNum (376 # 10)); ("longitude", JNum (1269 # 10))]].

(** A route document with one route. *)
Definition posted_route_data : json :=
  JDict
    [("resultCode", JStr "Ok");
     ("result",
      JList
        [JDict
           [("waypoints",
             JList
               [JDict [("location", waypoint_at (375 # 10) (1268 # 10))];
                JDict [("location", waypoint_at (376 # 10) (1269 # 10))]]);
            ("routes",
             JList
               [JDict [("geometry", JStr "_p~iF~ps|U");
                       ("duration", JNum 600);
                       ("distance", JNum (97037 # 10))]])]])].

End DocSamples.

(** * Properties *)

(** ** Arithmetic of the primitives *)

Section PyFacts.

Lemma Qlt_bool_iff (a b : Q) : Qlt_bool a b = true <-> a < b.
Proof.
  unfold Qlt_bool. rewrite negb_true_iff. split.
  - intro H. apply Qnot_le_lt. intro Hle.
    apply Qle_bool_iff in Hle. congruence.
  - intro H. destruct (Qle_bool b a) eqn:E; [|reflexivity].
    apply Qle_bool_iff in E. exfalso. apply (Qlt_not_le _ _ H E).
Qed.

Lemma Qlt_bool_false_iff (a b : Q) : Qlt_bool a b = false <-> b <= a.
Proof.
  unfold Qlt_bool. rewrite negb_false_iff. apply Qle_bool_iff.
Qed.

Lemma truediv_ok (x y : Q) : ~ y == 0 -> truediv x y = Ok (x / y).
Proof.
  intro H. unfold truediv. destruct (Qeq_bool y 0) eqn:E; [|reflexivity].
  apply Qeq_bool_eq in E. contradiction.
Qed.

Lemma truediv_raise (x y : Q) :
  y == 0 -> truediv x y = Raise ZeroDivisionError.
Proof.
  intro H. unfold truediv. now rewrite (Qeq_eq_bool _ _ H).
Qed.

(** [sum] is written with an accumulator, as Python evaluates it; it
    agrees with the recursive sum. *)
Lemma fold_left_Qplus (xs : list Q) (acc : Q) :
  fold_left Qplus xs acc == acc + fold_right Qplus 0 xs.
Proof.
  revert acc. induction xs as [|x xs IH]; intro acc; simpl.
  - ring.
  - rewrite IH. ring.
Qed.

Lemma sum_fold_right (xs : list Q) : Py.sum xs == fold_right Qplus 0 xs.
Proof.
  unfold Py.sum. rewrite fold_left_Qplus. ring.
Qed.

Lemma sum_all_zero (xs : list Q) :
  Forall (fun x => x == 0) xs -> Py.sum xs == 0.
Proof.
  intro H. rewrite sum_fold_right.
  induction H as [|x xs Hx _ IH]; simpl.
  - reflexivity.
  - rewrite Hx, IH. ring.
Qed.

End PyFacts.

(** ** The traffic-adjusted extraction *)

Section ExtractFacts.

Import Api.

(** The embedding on the sample routes. *)
Example lower_example : lower "GANGNAM-DAERO 12-gil" = "gangnam-daero 12-gil"%string.
Proof. reflexivity. Qed.

Example contains_example :
  contains "gangnam-daero" "gangnam-daero 12-gil" = true
  /\ contains "gangnam-daero 12-gil" "gangnam-daero" = false
  /\ contains "" "olympic-daero" = true.
Proof. repeat split. Qed.

Example route_roads_example :
  _extract_route_roads named_route_data = ["Gangnam-daero"%string].
Proof. reflexivity. Qed.

Example relevant_example :
  relevant unrelated_route = []
  /\ relevant named_route = [segment 45 2 "GANGNAM-DAERO 12-gil"]
  /\ relevant busy_route = [segment 30 5 "A"; segment 50 7 "B"].
Proof. repeat split. Qed.

Example coverage_example :
  exists ta,
    _extract_traffic_adjusted_route (Some named_route) = Ok (Some ta)
    /\ traffic_coverage ta = partial
    /\ traffic_segments ta = 1%nat
    /\ total_traffic_segments_in_area ta = Some 2%nat.
Proof. eexists. split; [vm_compute; reflexivity|]. repeat split. Qed.

Lemma thousand_nonzero : ~ 1000 == 0.
Proof. discriminate. Qed.

Lemma hours_zero_iff (d : Q) : d / 3600 == 0 <-> d == 0.
Proof.
  split; intro H.
  - assert (E : d == d / 3600 * 3600) by (field; discriminate).
    rewrite E, H. ring.
  - rewrite H. reflexivity.
Qed.

(** The no-relevant-data branch when the planned duration is not zero. *)
Lemma extract_no_relevant (r : AnalysisResult) :
  relevant r = [] ->
  ~ duration (route_data r) == 0 ->
  exists avg note,
    _extract_traffic_adjusted_route (Some r) =
    Ok (Some {| duration_seconds := duration (route_data r);
                distance_meters := distance (route_data r);
                average_speed_kmh := avg;
                time_difference_seconds := 0;
                time_difference_percent := 0;
                traffic_segments := 0;
                total_traffic_segments_in_area := None;
                traffic_coverage := no_relevant_data;
                speed_range := None;
                note := note |}).
Proof.
  intros Hrel Hd. unfold relevant in Hrel.
  unfold _extract_traffic_adjusted_route. rewrite Hrel.
  rewrite (truediv_ok _ 1000 thousand_nonzero). cbn [bind].
  rewrite (truediv_ok _ 3600) by discriminate. cbn [bind].
  rewrite truediv_ok by (rewrite hours_zero_iff; exact Hd). cbn [bind].
  eexists _, _. reflexivity.
Qed.

(** The no-relevant-data branch when the planned duration is zero. *)
Lemma extract_no_relevant_raises (r : AnalysisResult) :
  relevant r = [] ->
  duration (route_data r) == 0 ->
  _extract_traffic_adjusted_route (Some r) = Raise ZeroDivisionError.
Proof.
  intros Hrel Hd. unfold relevant in Hrel.
  unfold _extract_traffic_adjusted_route. rewrite Hrel.
  rewrite (truediv_ok _ 1000 thousand_nonzero). cbn [bind].
  rewrite (truediv_ok _ 3600) by discriminate. cbn [bind].
  rewrite truediv_raise by (rewrite hours_zero_iff; exact Hd).
  reflexivity.
Qed.

(** The non-empty branch never raises, and returns this dictionary. *)
Lemma extract_relevant (r : AnalysisResult) :
  relevant r <> [] ->
  let speeds := map current_speed (relevant r) in
  let td := traffic_duration_of r in
  _extract_traffic_adjusted_route (Some r) =
  Ok (Some {| duration_seconds := td;
              distance_meters := distance (route_data r);
              average_speed_kmh := Py.sum speeds / len speeds;
              time_difference_seconds := td - duration (route_data r);
              time_difference_percent :=
                if Qlt_bool 0 (duration (route_data r))
                then (td - duration (route_data r))
                     / duration (route_data r) * 100
                else 0;
              traffic_segments := List.length (relevant r);
              total_traffic_segments_in_area :=
                Some (List.length (matched_traffic r));
              traffic_coverage :=
                if (List.length (relevant r)
                    <? List.length (matched_traffic r))%nat
                then partial else good;
              speed_range := Some (Py.min speeds, Py.max speeds);
              note := None |}).
Proof.
  intros Hne speeds td. subst speeds td.
  unfold traffic_duration_of, _extract_traffic_adjusted_route.
  fold (relevant r).
  destruct (relevant r) as [|m rel] eqn:Hrel; [congruence|].
  set (speeds := map current_speed (m :: rel)).
  assert (Hlen : ~ len speeds == 0).
  { subst speeds. unfold len, Qeq. cbn [Qnum Qden inject_Z map List.length].
    lia. }
  rewrite (truediv_ok _ _ Hlen). cbn [bind].
  rewrite (truediv_ok _ 1000 thousand_nonzero). cbn [bind].
  destruct (Qlt_bool 0 (Py.sum speeds / len speeds)) eqn:Havg.
  - apply Qlt_bool_iff in Havg.
    rewrite truediv_ok by (intro H; rewrite H in Havg; discriminate Havg).
    cbn [bind].
    destruct (Qlt_bool 0 (duration (route_data r))) eqn:Hdur.
    + apply Qlt_bool_iff in Hdur.
      rewrite truediv_ok by (intro H; rewrite H in Hdur; discriminate Hdur).
      reflexivity.
    + reflexivity.
  - cbn [bind].
    destruct (Qlt_bool 0 (duration (route_data r))) eqn:Hdur.
    + apply Qlt_bool_iff in Hdur.
      rewrite truediv_ok by (intro H; rewrite H in Hdur; discriminate Hdur).
      reflexivity.
    + reflexivity.
Qed.

(** C1. With an empty relevant segment list the extraction returns the
    planned duration, a time difference of 0 seconds and 0 percent and
    the coverage [no_relevant_data], whatever the full matched list
    holds -- provided the planned duration is not zero.  With a planned
    duration of zero the same branch divides by it when it computes the
    average speed, and the extraction raises [ZeroDivisionError]
    instead of returning. *)
Theorem no_relevant_data_extraction (r : AnalysisResult) :
  relevant r = [] ->
  (~ duration (route_data r) == 0 ->
   exists ta,
     _extract_traffic_adjusted_route (Some r) = Ok (Some ta)
     /\ duration_seconds ta = duration (route_data r)
     /\ time_difference_seconds ta = 0
     /\ time_difference_percent ta = 0
     /\ traffic_coverage ta = no_relevant_data)
  /\ (duration (route_data r) == 0 ->
      _extract_traffic_adjusted_route (Some r) = Raise ZeroDivisionError).
Proof.
  intro Hrel. split; intro Hd.
  - destruct (extract_no_relevant r Hrel Hd) as (avg & note & E).
    eexists. split; [exact E|]. cbn. repeat split.
  - apply extract_no_relevant_raises; assumption.
Qed.

Lemma no_relevant_data_extraction_witness :
  _extract_traffic_adjusted_route (Some point_route) = Raise ZeroDivisionError
  /\ exists ta,
       _extract_traffic_adjusted_route (Some unrelated_route) = Ok (Some ta)
       /\ duration_seconds ta = 600
       /\ time_difference_seconds ta = 0
       /\ time_difference_percent ta = 0
       /\ traffic_coverage ta = no_relevant_data.
Proof.
  split.
  - apply (no_relevant_data_extraction point_route); reflexivity.
  - apply (no_relevant_data_extraction unrelated_route);
      [reflexivity | discriminate].
Defined.

(** C2, as the code has it.  With a non-empty relevant segment list
    the extraction returns normally; its average speed is the mean of
    the relevant speeds; its duration is
    [(distance / 1000 / average) * 3600] when the average is greater
    than 0 and the planned duration otherwise, in particular when every
    relevant segment reports speed 0.  No division by zero is reached
    on this branch.  That the duration is finite is not part of it: on
    floats the division overflows for a small enough average. *)
Theorem relevant_data_extraction (r : AnalysisResult) :
  relevant r <> [] ->
  exists ta,
    _extract_traffic_adjusted_route (Some r) = Ok (Some ta)
    /\ average_speed_kmh ta == mean (map current_speed (relevant r))
    /\ (0 < average_speed_kmh ta ->
        duration_seconds ta =
        distance (route_data r) / 1000 / average_speed_kmh ta * 3600)
    /\ (~ 0 < average_speed_kmh ta ->
        duration_seconds ta = duration (route_data r))
    /\ (Forall (fun m => current_speed m == 0) (relevant r) ->
        duration_seconds ta = duration (route_data r)).
Proof.
  intro Hne. eexists. split; [exact (extract_relevant r Hne)|].
  cbn [average_speed_kmh duration_seconds]. unfold traffic_duration_of.
  set (speeds := map current_speed (relevant r)).
  set (avg := Py.sum speeds / len speeds).
  repeat split.
  - unfold avg, mean, len, of_nat. rewrite sum_fold_right. reflexivity.
  - intro H. apply Qlt_bool_iff in H. now rewrite H.
  - intro H. destruct (Qlt_bool 0 avg) eqn:E; [|reflexivity].
    apply Qlt_bool_iff in E. contradiction.
  - intro H0.
    assert (Hs : Py.sum speeds == 0).
    { apply sum_all_zero. subst speeds. rewrite Forall_map. exact H0. }
    destruct (Qlt_bool 0 avg) eqn:E; [|reflexivity].
    apply Qlt_bool_iff in E. exfalso.
    unfold avg in E. rewrite Hs in E. unfold Qdiv in E.
    rewrite Qmult_0_l in E. discriminate E.
Qed.

Lemma relevant_data_extraction_witness :
  exists ta,
    _extract_traffic_adjusted_route (Some busy_route) = Ok (Some ta)
    /\ average_speed_kmh ta == 40
    /\ duration_seconds ta == 8733330 # 10000.
Proof.
  destruct (relevant_data_extraction busy_route) as (ta & E & Havg & Hpos & _).
  - discriminate.
  - exists ta. split; [exact E|]. split.
    + rewrite Havg. reflexivity.
    + assert (P : 0 < average_speed_kmh ta) by (rewrite Havg; reflexivity).
      rewrite (Hpos P).
      vm_compute in E. injection E as <-. reflexivity.
Defined.

(** C5. With an empty set of route road names the relevance filter is
    the identity on matched-segment lists: every segment passes, in
    input order. *)
Theorem filter_fail_open (matched : list MatchedSegment) :
  route_specific_traffic [] (map Dict matched) = matched.
Proof.
  induction matched as [|m matched IH]; cbn.
  - reflexivity.
  - now rewrite IH.
Qed.

(** The same on an analysis result: when no road name is extracted from
    the route, the relevant segments are the matched ones. *)
Lemma relevant_fail_open (rd : RouteData) (matched : list MatchedSegment) :
  _extract_route_roads rd = [] ->
  relevant {| route_data := rd; matched_traffic := map Dict matched |}
  = matched.
Proof.
  intro H. unfold relevant. cbn [route_data matched_traffic].
  rewrite H. induction matched as [|m matched IH]; cbn.
  - reflexivity.
  - now rewrite IH.
Qed.

(** The thresholds of the if-chain. *)
Lemma condition_of_spec (p : Q) :
  (20 < p -> condition_of p = heavy_delay)
  /\ (10 < p <= 20 -> condition_of p = moderate_delay)
  /\ (p < -10 -> condition_of p = faster_than_expected)
  /\ (-10 <= p <= 10 -> condition_of p = normal).
Proof.
  unfold condition_of.
  destruct (Qlt_bool 20 p) eqn:E20;
    [apply Qlt_bool_iff in E20 | apply Qlt_bool_false_iff in E20];
  (destruct (Qlt_bool 10 p) eqn:E10;
    [apply Qlt_bool_iff in E10 | apply Qlt_bool_false_iff in E10]);
  (destruct (Qlt_bool p (-10)) eqn:Em;
    [apply Qlt_bool_iff in Em | apply Qlt_bool_false_iff in Em]);
  repeat split; intros; try reflexivity; exfalso; lra.
Qed.

(** The simplified extraction classifies the percentage that the
    extraction computed. *)
Lemma simple_condition (result : option AnalysisResult) (ta : TrafficAdjusted) :
  _extract_traffic_adjusted_route result = Ok (Some ta) ->
  exists s,
    _extract_traffic_adjusted_route_simple result = Ok s
    /\ traffic_condition s = condition_of (time_difference_percent ta).
Proof.
  intro E. unfold _extract_traffic_adjusted_route_simple.
  rewrite E. cbn [bind].
  rewrite truediv_ok by discriminate. cbn [bind].
  eexists. split; reflexivity.
Qed.

(** C6. The condition of the simplified output follows strict
    thresholds on the percentage: above 20 it is [heavy_delay], and
    exactly 20 is not; above 10 (up to 20) it is [moderate_delay];
    below -10 it is [faster_than_expected]; from -10 to 10 it is
    [normal]. *)
Theorem condition_thresholds
  (result : option AnalysisResult) (ta : TrafficAdjusted) :
  _extract_traffic_adjusted_route result = Ok (Some ta) ->
  exists s,
    _extract_traffic_adjusted_route_simple result = Ok s
    /\ let p := time_difference_percent ta in
       (20 < p <-> traffic_condition s = heavy_delay)
       /\ (p == 20 -> traffic_condition s = moderate_delay)
       /\ (10 < p <= 20 <-> traffic_condition s = moderate_delay)
       /\ (p < -10 <-> traffic_condition s = faster_than_expected)
       /\ (-10 <= p <= 10 <-> traffic_condition s = normal).
Proof.
  intro E. destruct (simple_condition result ta E) as (s & Es & Hc).
  exists s. split; [exact Es|]. cbn zeta. rewrite Hc.
  set (p := time_difference_percent ta).
  destruct (condition_of_spec p) as (Hh & Hm & Hf & Hn).
  destruct (Qlt_le_dec 20 p) as [L20|L20].
  - rewrite (Hh L20).
    repeat split; intros; try discriminate; try reflexivity;
      try assumption; exfalso; lra.
  - destruct (Qlt_le_dec 10 p) as [L10|L10].
    + rewrite (Hm (conj L10 L20)).
      repeat split; intros; try discriminate; try reflexivity;
        try assumption; exfalso; lra.
    + destruct (Qlt_le_dec p (-10)) as [Lm|Lm].
      * rewrite (Hf Lm).
        repeat split; intros; try discriminate; try reflexivity;
          try assumption; exfalso; lra.
      * rewrite (Hn (conj Lm L10)).
        repeat split; intros; try discriminate; try reflexivity;
          try assumption; exfalso; lra.
Qed.

Lemma condition_thresholds_witness :
  (exists s,
     _extract_traffic_adjusted_route_simple (Some slow_route) = Ok s
     /\ traffic_condition s = moderate_delay)
  /\ (exists s,
        _extract_traffic_adjusted_route_simple (Some busy_route) = Ok s
        /\ traffic_condition s = heavy_delay).
Proof.
  split.
  - pose proof (extract_relevant slow_route ltac:(discriminate)) as E.
    destruct (condition_thresholds _ _ E) as (s & Es & _ & H20 & _).
    exists s. split; [exact Es|]. apply H20. vm_compute. reflexivity.
  - pose proof (extract_relevant busy_route ltac:(discriminate)) as E.
    destruct (condition_thresholds _ _ E) as (s & Es & Hh & _).
    exists s. split; [exact Es|]. apply Hh. vm_compute. reflexivity.
Defined.

(** C9. When the coverage is [no_relevant_data] the recommendation list
    is the no-data advisory -- its three lines -- and nothing else: the
    generator returns there, before any time-difference, flow-quality
    or coverage note is appended. *)
Theorem no_relevant_data_recommendations
  (result : option AnalysisResult) (ta : TrafficAdjusted) :
  _extract_traffic_adjusted_route result = Ok (Some ta) ->
  traffic_coverage ta = no_relevant_data ->
  _generate_recommendations result = Ok no_relevant_data_advice.
Proof.
  intros E Hcov. destruct result as [r|]; [|discriminate E].
  unfold _generate_recommendations. rewrite E. cbn [bind].
  rewrite Hcov. reflexivity.
Qed.

Lemma no_relevant_data_recommendations_witness :
  _generate_recommendations (Some quiet_route) = Ok no_relevant_data_advice.
Proof.
  destruct (extract_no_relevant quiet_route eq_refl ltac:(discriminate))
    as (avg & note & E).
  exact (no_relevant_data_recommendations _ _ E eq_refl).
Defined.

(** C10. The extraction leaves the route distance as it is: whenever it
    returns a dictionary, in either branch, [distance_meters] is the
    route's distance.  It returns one whenever the relevant list is not
    empty or the planned duration is not zero. *)
Theorem distance_unchanged (r : AnalysisResult) :
  (forall ta,
     _extract_traffic_adjusted_route (Some r) = Ok (Some ta) ->
     distance_meters ta = distance (route_data r))
  /\ (relevant r <> [] \/ ~ duration (route_data r) == 0 ->
      exists ta, _extract_traffic_adjusted_route (Some r) = Ok (Some ta)).
Proof.
  destruct (relevant r) as [|m rel] eqn:Hrel.
  - destruct (Qeq_dec (duration (route_data r)) 0) as [Hz|Hnz].
    + split.
      * intros ta E. rewrite (extract_no_relevant_raises r Hrel Hz) in E.
        discriminate E.
      * intros [H|H]; [congruence | contradiction].
    + destruct (extract_no_relevant r Hrel Hnz) as (avg & note & E).
      split.
      * intros ta E'. rewrite E in E'. injection E' as <-. reflexivity.
      * intros _. eexists. exact E.
  - assert (Hne : relevant r <> []) by (rewrite Hrel; discriminate).
    pose proof (extract_relevant r Hne) as E. cbn zeta in E.
    split.
    + intros ta E'. rewrite E in E'. injection E' as <-. reflexivity.
    + intros _. eexists. exact E.
Qed.

Lemma distance_unchanged_witness :
  (exists ta,
     _extract_traffic_adjusted_route (Some busy_route) = Ok (Some ta)
     /\ distance_meters ta = 97037 # 10)
  /\ (exists ta,
        _extract_traffic_adjusted_route (Some quiet_route) = Ok (Some ta)
        /\ distance_meters ta = 97037 # 10).
Proof.
  split.
  - destruct (distance_unchanged busy_route) as (Hd & Hex).
    destruct Hex as (ta & E); [left; discriminate|].
    exists ta. split; [exact E | exact (Hd ta E)].
  - destruct (distance_unchanged quiet_route) as (Hd & Hex).
    destruct Hex as (ta & E); [right; discriminate|].
    exists ta. split; [exact E | exact (Hd ta E)].
Defined.

End ExtractFacts.

(** ** The adjusted duration in machine arithmetic *)

Section MachineFacts.

Import PrimFloat.

Local Open Scope float_scope.

(** The float arithmetic on the scenario of the specification: 600 s
    and 9703.7 m planned, speeds of 30 and 50 km/h. *)
Example float_duration_example :
  exists adjusted,
    Float64.traffic_duration 0x1.2f3d99999999ap+13 600 [30; 50] = Ok adjusted
    /\ (873 <? adjusted) = true
    /\ (adjusted <? 874) = true.
Proof. eexists. split; [vm_compute; reflexivity|]. split; reflexivity. Qed.

(** With every speed zero the float computation falls back to the
    planned duration, as the exact one does. *)
Example float_fallback_example :
  Float64.traffic_duration 1000 600 [0; 0] = Ok 600.
Proof. reflexivity. Qed.

(** C2 fails as stated.  One relevant segment with the positive speed
    1e-310 km/h on a route of 1000 m: the average speed is greater
    than 0, so the duration is computed by the division, which
    overflows; the adjusted duration is infinite. *)
Lemma tiny_speed_infinite_duration :
  (0 <? Float64.crawl) = true
  /\ exists adjusted,
       Float64.traffic_duration 1000 600 [Float64.crawl] = Ok adjusted
       /\ is_infinity adjusted = true.
Proof.
  split; [reflexivity|]. exists infinity. split; reflexivity.
Qed.

End MachineFacts.

(** ** Sorting by distance to the route *)

Section SortFacts.

Import RouteProcessor.

Lemma insert_by_distance_perm (x : MatchedSegment) (l : list MatchedSegment) :
  Permutation (x :: l) (insert_by_distance x l).
Proof.
  induction l as [|y l IH]; cbn.
  - apply Permutation_refl.
  - destruct (Qle_bool (distance_to_route_m x) (distance_to_route_m y)).
    + apply Permutation_refl.
    + eapply perm_trans; [apply perm_swap|]. now apply perm_skip.
Qed.

Lemma insert_by_distance_hd (x y : MatchedSegment) (l : list MatchedSegment) :
  by_distance y x -> HdRel by_distance y l ->
  HdRel by_distance y (insert_by_distance x l).
Proof.
  intros Hyx Hl. destruct l as [|z l]; cbn.
  - now constructor.
  - destruct (Qle_bool (distance_to_route_m x) (distance_to_route_m z)).
    + now constructor.
    + constructor. now inversion Hl.
Qed.

Lemma insert_by_distance_sorted (x : MatchedSegment) (l : list MatchedSegment) :
  Sorted by_distance l -> Sorted by_distance (insert_by_distance x l).
Proof.
  induction 1 as [|y l Hs IH Hhd]; cbn.
  - repeat constructor.
  - destruct (Qle_bool (distance_to_route_m x) (distance_to_route_m y)) eqn:E.
    + apply Qle_bool_iff in E.
      constructor; [now constructor | now constructor].
    + constructor; [exact IH|].
      apply insert_by_distance_hd; [|exact Hhd].
      unfold by_distance.
      destruct (Qlt_le_dec (distance_to_route_m y) (distance_to_route_m x))
        as [Hlt|Hle].
      * now apply Qlt_le_weak.
      * apply Qle_bool_iff in Hle. congruence.
Qed.

Lemma insert_by_distance_stable
  (d : Q) (x : MatchedSegment) (l : list MatchedSegment) :
  at_distance d (insert_by_distance x l) = at_distance d (x :: l).
Proof.
  induction l as [|y l IH]; [reflexivity|]. cbn [insert_by_distance].
  destruct (Qle_bool (distance_to_route_m x) (distance_to_route_m y)) eqn:E;
    [reflexivity|].
  unfold at_distance in *. cbn [filter] in *. rewrite IH.
  destruct (Qeq_bool (distance_to_route_m y) d) eqn:Ey;
    destruct (Qeq_bool (distance_to_route_m x) d) eqn:Ex; try reflexivity.
  exfalso. apply Qeq_bool_eq in Ey, Ex.
  assert (Hle : distance_to_route_m x <= distance_to_route_m y)
    by (rewrite Ex, Ey; apply Qle_refl).
  apply Qle_bool_iff in Hle. congruence.
Qed.

Lemma sort_by_distance_perm (l : list MatchedSegment) :
  Permutation l (sort_by_distance l).
Proof.
  induction l as [|x l IH]; cbn.
  - apply perm_nil.
  - eapply perm_trans; [apply perm_skip, IH|]. apply insert_by_distance_perm.
Qed.

Lemma sort_by_distance_sorted (l : list MatchedSegment) :
  Sorted by_distance (sort_by_distance l).
Proof.
  induction l as [|x l IH]; cbn.
  - constructor.
  - now apply insert_by_distance_sorted.
Qed.

Lemma sort_by_distance_stable (d : Q) (l : list MatchedSegment) :
  at_distance d (sort_by_distance l) = at_distance d l.
Proof.
  induction l as [|x l IH]; [reflexivity|]. cbn [sort_by_distance fold_right].
  rewrite insert_by_distance_stable. fold (sort_by_distance l).
  unfold at_distance in *. cbn [filter]. now rewrite IH.
Qed.

Lemma by_distance_trans : Relations_1.Transitive by_distance.
Proof.
  intros a b c Hab Hbc. unfold by_distance in *. eapply Qle_trans; eassumption.
Qed.

Lemma at_distance_head (a : MatchedSegment) (l : list MatchedSegment) :
  at_distance (distance_to_route_m a) (a :: l)
  = a :: at_distance (distance_to_route_m a) l.
Proof.
  unfold at_distance. cbn [filter].
  now rewrite (Qeq_eq_bool _ _ (Qeq_refl (distance_to_route_m a))).
Qed.

Lemma at_distance_In (d : Q) (a : MatchedSegment) (l : list MatchedSegment) :
  In a (at_distance d l) -> In a l.
Proof.
  unfold at_distance. intro H. apply filter_In in H. tauto.
Qed.

Lemma sorted_head_least (b a : MatchedSegment) (l : list MatchedSegment) :
  Sorted by_distance (b :: l) -> In a (b :: l) -> by_distance b a.
Proof.
  intros Hs Hin. apply Sorted_StronglySorted in Hs; [|exact by_distance_trans].
  inversion Hs as [|? ? _ Hall]; subst.
  destruct Hin as [<-|Hin].
  - apply Qle_refl.
  - rewrite Forall_forall in Hall. now apply Hall.
Qed.

(** A list has one arrangement that is sorted by distance and keeps,
    at every distance, the segments in their original order. *)
Lemma stable_sort_unique (l1 l2 : list MatchedSegment) :
  Sorted by_distance l1 -> Sorted by_distance l2 ->
  (forall d, at_distance d l1 = at_distance d l2) ->
  l1 = l2.
Proof.
  revert l2. induction l1 as [|a l1 IH]; intros l2 H1 H2 Heq.
  - destruct l2 as [|b l2]; [reflexivity|].
    specialize (Heq (distance_to_route_m b)).
    rewrite at_distance_head in Heq. discriminate Heq.
  - destruct l2 as [|b l2].
    { specialize (Heq (distance_to_route_m a)).
      rewrite at_distance_head in Heq. discriminate Heq. }
    assert (Hba : by_distance b a).
    { apply (sorted_head_least b a l2 H2).
      apply (at_distance_In (distance_to_route_m a)).
      rewrite <- Heq, at_distance_head. now left. }
    assert (Hab : by_distance a b).
    { apply (sorted_head_least a b l1 H1).
      apply (at_distance_In (distance_to_route_m b)).
      rewrite Heq, at_distance_head. now left. }
    assert (Hk : distance_to_route_m b == distance_to_route_m a)
      by (apply Qle_antisym; assumption).
    assert (Hhd : a = b).
    { pose proof (Heq (distance_to_route_m a)) as E.
      rewrite at_distance_head in E.
      unfold at_distance in E. cbn [filter] in E.
      rewrite (Qeq_eq_bool _ _ Hk) in E. now injection E. }
    subst b. f_equal. apply IH.
    + now inversion H1.
    + now inversion H2.
    + intro d. specialize (Heq d).
      unfold at_distance in *. cbn [filter] in Heq.
      destruct (Qeq_bool (distance_to_route_m a) d).
      * now injection Heq.
      * exact Heq.
Qed.

End SortFacts.

(** ** The spatial matcher *)

Section MatcherFacts.

Import RouteProcessor.

Lemma subseq_refl {A : Type} (l : list A) : subseq l l.
Proof. induction l; now constructor. Qed.

Lemma subseq_trans {A : Type} (l1 l2 l3 : list A) :
  subseq l1 l2 -> subseq l2 l3 -> subseq l1 l3.
Proof.
  intros H12 H23. revert l1 H12.
  induction H23 as [|x l2 l3 H23 IH|x l2 l3 H23 IH]; intros l1 H12.
  - exact H12.
  - constructor. now apply IH.
  - inversion H12 as [|? ? ? H|? ? ? H]; subst.
    + constructor. now apply IH.
    + apply subseq_take. now apply IH.
Qed.

Lemma subseq_filter {A : Type} (f : A -> bool) (l : list A) :
  subseq (filter f l) l.
Proof.
  induction l as [|x l IH]; cbn.
  - constructor.
  - destruct (f x); now constructor.
Qed.

Lemma subseq_map {A B : Type} (f : A -> B) (l1 l2 : list A) :
  subseq l1 l2 -> subseq (map f l1) (map f l2).
Proof. induction 1; cbn; now constructor. Qed.

Section Store.

Context (db : Database).
Context (route_wkt : option linestring) (buffer_distance : Q).

Lemma first_row_attempts
  (queries : list table_query) (cur : cursor db) (link_id : string) :
  fst (first_row db cur queries route_wkt link_id buffer_distance)
  = first_yielding_row
      (attempts db cur queries route_wkt link_id buffer_distance).
Proof.
  revert cur. induction queries as [|q queries IH]; intro cur; cbn.
  - reflexivity.
  - destruct (execute db cur q route_wkt link_id buffer_distance)
      as [[r| |] cur']; cbn; [reflexivity | apply IH | apply IH].
Qed.

Lemma match_item_api_data
  (cur cur' : cursor db) (item : TrafficItem) (entry : MatchedSegment) :
  match_item db cur route_wkt buffer_distance item = (Some entry, cur') ->
  api_data entry = item.
Proof.
  unfold match_item. destruct (linkId item) as [[|c id]|]; try discriminate.
  destruct (first_row _ _ _ _ _ _) as [[r|] cur1]; try discriminate.
  unfold matched_entry.
  destruct (float_of (speed item)); cbn; try discriminate.
  destruct (float_of (travelTime item)); cbn; try discriminate.
  intro H. injection H as <- _. reflexivity.
Qed.

Lemma match_items_subseq (items : list TrafficItem) (cur : cursor db) :
  subseq
    (map api_data (fst (match_items db cur route_wkt buffer_distance items)))
    items.
Proof.
  revert cur. induction items as [|item items IH]; intro cur; cbn.
  - constructor.
  - destruct (match_item db cur route_wkt buffer_distance item)
      as [[entry|] cur1] eqn:E.
    + specialize (IH cur1).
      destruct (match_items db cur1 route_wkt buffer_distance items)
        as [matched cur2].
      cbn in *. rewrite (match_item_api_data _ _ _ _ E).
      now apply subseq_take.
    + specialize (IH cur1).
      destruct (match_items db cur1 route_wkt buffer_distance items)
        as [matched cur2].
      cbn in *. now apply subseq_skip.
Qed.

End Store.

Lemma subseq_nil_l {A : Type} (l : list A) : subseq [] l.
Proof. induction l; now constructor. Qed.

(** The embedding on the sample store: link C is in no table, the
    reading without identifier is skipped, and B, at 3 metres, comes
    before A and D, both at 12 metres. *)
Example match_example :
  exists out,
    match_traffic_to_route sample_store (GeoJSON (Some two_points))
      sample_traffic 50 = Ok out
    /\ map (fun m => (link_id m, distance_to_route_m m, current_speed m)) out
       = [("B"%string, 3, 50); ("A"%string, 12, 30); ("D"%string, 12, 40)].
Proof. eexists. split; [vm_compute; reflexivity | reflexivity]. Qed.

Example updated_route_example :
  exists u m,
    calculate_updated_route sample_store
      {| osrm_routes :=
           [{| osrm_geometry := Some (GeoJSON (Some two_points)) |}] |}
      sample_traffic = Ok u
    /\ route_metrics u = Some m
    /\ matched_segments m = 3%nat
    /\ avg_speed_kmh m == 40
    /\ total_length_m m == 300
    /\ estimated_time_s m == 282 # 10.
Proof.
  eexists. eexists. split; [vm_compute; reflexivity|].
  split; [reflexivity|]. repeat split.
Qed.

(** Once the store is connected the matcher returns: the sorted list of
    what its loop collected, which follows the order of the readings. *)
Lemma match_traffic_to_route_returns
  (db : Database) (cur : cursor db) (g : route_geometry) (td : TrafficData)
  (buffer_distance : Q) :
  connect db = Ok cur ->
  exists collected,
    match_traffic_to_route db g td buffer_distance
    = Ok (sort_by_distance collected)
    /\ subseq (map api_data collected) (traffic_items_of td).
Proof.
  intro Hc. unfold match_traffic_to_route. rewrite Hc. cbn [bind].
  destruct (truthy_list (traffic_items_of td)); cbn [negb].
  2:{ exists []. split; [reflexivity | apply subseq_nil_l]. }
  destruct (truthy_list (route_coords_of g)); cbn [negb].
  2:{ exists []. split; [reflexivity | apply subseq_nil_l]. }
  pose proof (match_items_subseq db
                (_coords_to_linestring_wkt (route_coords_of g))
                buffer_distance (traffic_items_of td) cur) as Hsub.
  destruct (match_items db cur _ buffer_distance (traffic_items_of td))
    as [matched cur'].
  exists matched. split; [reflexivity | exact Hsub].
Qed.

(** C4. Whatever the route geometry and the batch of readings, once the
    store is connected the matcher returns a list sorted non-decreasing
    by distance to the route.  The list is a rearrangement of what the
    loop collected in input order that keeps, at every distance, the
    collected order: segments at equal distance appear in the order of
    their readings in the input. *)
Theorem match_sorted_stable
  (db : Database) (cur : cursor db) (g : route_geometry) (td : TrafficData)
  (buffer_distance : Q) :
  connect db = Ok cur ->
  exists out,
    match_traffic_to_route db g td buffer_distance = Ok out
    /\ StronglySorted by_distance out
    /\ (forall d,
          subseq (map api_data (at_distance d out)) (traffic_items_of td))
    /\ exists collected,
         Permutation collected out
         /\ subseq (map api_data collected) (traffic_items_of td)
         /\ forall d, at_distance d out = at_distance d collected.
Proof.
  intro Hc.
  destruct (match_traffic_to_route_returns db cur g td buffer_distance Hc)
    as (collected & E & Hsub).
  exists (sort_by_distance collected). split; [exact E|]. split.
  { apply Sorted_StronglySorted; [exact by_distance_trans|].
    apply sort_by_distance_sorted. }
  split.
  { intro d. rewrite sort_by_distance_stable.
    eapply subseq_trans; [|exact Hsub].
    apply subseq_map. unfold at_distance. apply subseq_filter. }
  exists collected. split; [apply sort_by_distance_perm|].
  split; [exact Hsub|]. intro d. apply sort_by_distance_stable.
Qed.

Lemma match_sorted_stable_witness :
  exists out,
    match_traffic_to_route sample_store (GeoJSON (Some two_points))
      sample_traffic 50 = Ok out
    /\ map link_id out = ["B"; "A"; "D"]%string.
Proof.
  destruct (match_sorted_stable sample_store 0%nat (GeoJSON (Some two_points))
              sample_traffic 50 eq_refl) as (out & E & _).
  exists out. split; [exact E|].
  vm_compute in E. injection E as <-. reflexivity.
Defined.

(** C3, as the code has it.  An encoded polyline string is decoded to
    no coordinates, and the matcher then returns the empty list as a
    normal result, whatever the string and the readings;
    [calculate_updated_route] in turn returns a result without matched
    traffic and without metrics.  Neither reports an error. *)
Theorem encoded_geometry_matches_nothing
  (db : Database) (cur : cursor db) (encoded_polyline : string)
  (td : TrafficData) (buffer_distance : Q) :
  connect db = Ok cur ->
  match_traffic_to_route db (Encoded encoded_polyline) td buffer_distance
  = Ok []
  /\ forall original_route others,
       osrm_routes original_route
       = {| osrm_geometry := Some (Encoded encoded_polyline) |} :: others ->
       calculate_updated_route db original_route td
       = Ok {| updated_original_route := original_route;
               updated_matched_traffic := [];
               route_metrics := None |}.
Proof.
  intro Hc.
  assert (E : forall buffer,
             match_traffic_to_route db (Encoded encoded_polyline) td buffer
             = Ok []).
  { intro buffer. unfold match_traffic_to_route. rewrite Hc. cbn [bind].
    destruct (truthy_list (traffic_items_of td)); reflexivity. }
  split; [apply E|].
  intros original_route others Hr. unfold calculate_updated_route.
  rewrite Hr. cbn [bind osrm_geometry]. rewrite E. reflexivity.
Qed.

Lemma encoded_geometry_matches_nothing_witness :
  match_traffic_to_route sample_store (Encoded "_p~iF~ps|U") sample_traffic 50
  = Ok [].
Proof.
  exact (proj1 (encoded_geometry_matches_nothing sample_store 0%nat _ _ _
                  eq_refl)).
Defined.

(** C3 fails as stated: for a string that is no polyline neither the
    matcher nor [calculate_updated_route] reports an error; the
    analysis succeeds with zero matched segments. *)
Lemma undecodable_polyline_not_reported :
  let g := Encoded "not a polyline" in
  let original_route := {| osrm_routes := [{| osrm_geometry := Some g |}] |} in
  match_traffic_to_route sample_store g sample_traffic 50 = Ok []
  /\ (forall e,
        match_traffic_to_route sample_store g sample_traffic 50 <> Raise e)
  /\ calculate_updated_route sample_store original_route sample_traffic
     = Ok {| updated_original_route := original_route;
             updated_matched_traffic := [];
             route_metrics := None |}
  /\ (forall e,
        calculate_updated_route sample_store original_route sample_traffic
        <> Raise e).
Proof.
  cbn zeta. split; [reflexivity|]. split; [discriminate|].
  split; [reflexivity | discriminate].
Qed.

(** C8, as the code has it.  For fewer than 2 coordinates the line
    builder gives no line ([None]) and the match operation still
    returns normally; for no coordinates at all it returns the empty
    list. *)
Theorem short_geometry_no_error
  (db : Database) (cur : cursor db) (coords : list coord)
  (td : TrafficData) (buffer_distance : Q) :
  connect db = Ok cur ->
  (List.length coords < 2)%nat ->
  _coords_to_linestring_wkt coords = None
  /\ (exists out,
        match_traffic_to_route db (GeoJSON (Some coords)) td buffer_distance
        = Ok out)
  /\ (coords = [] ->
      match_traffic_to_route db (GeoJSON (Some coords)) td buffer_distance
      = Ok []).
Proof.
  intros Hc Hlen. split; [|split].
  - unfold _coords_to_linestring_wkt.
    apply Nat.ltb_lt in Hlen. rewrite Hlen. now rewrite orb_true_r.
  - destruct (match_traffic_to_route_returns db cur (GeoJSON (Some coords))
                td buffer_distance Hc) as (collected & E & _).
    eexists. exact E.
  - intros ->. unfold match_traffic_to_route. rewrite Hc. cbn [bind].
    destruct (truthy_list (traffic_items_of td)); reflexivity.
Qed.

Lemma short_geometry_no_error_witness :
  _coords_to_linestring_wkt one_point = None
  /\ exists out,
       match_traffic_to_route sample_store (GeoJSON (Some one_point))
         sample_traffic 50 = Ok out.
Proof.
  destruct (short_geometry_no_error sample_store 0%nat one_point
              sample_traffic 50 eq_refl) as (Hw & Hex & _).
  - cbn. lia.
  - split; [exact Hw | exact Hex].
Defined.

(** C8 fails as stated: with no coordinates, and with one, the match
    operation returns a successful empty result, not an error. *)
Lemma short_geometry_not_rejected :
  match_traffic_to_route sample_store (GeoJSON (Some [])) sample_traffic 50
  = Ok []
  /\ match_traffic_to_route sample_store (GeoJSON (Some one_point))
       sample_traffic 50 = Ok []
  /\ forall e,
       match_traffic_to_route sample_store (GeoJSON (Some []))
         sample_traffic 50 <> Raise e.
Proof.
  split; [reflexivity|]. split; [reflexivity | discriminate].
Qed.

(** C7, as the code has it.  For a reading with a non-empty link
    identifier the matcher runs the three candidates in their fixed
    order -- [moct_link], [moct_link_table], [links] -- and uses the
    first one that yields a row: a candidate that raises a store error
    and a candidate that yields no row are both passed over.  The row
    so found is the one whose columns go into the segment appended for
    the reading.  When no candidate yields a row the reading adds
    nothing and the loop goes on with the readings after it; no store
    error leaves the matcher once the store is connected. *)
Theorem schema_fallback
  (db : Database) (cur : cursor db) (route_wkt : option linestring)
  (buffer_distance : Q) :
  map table table_queries = ["moct_link"; "moct_link_table"; "links"]%string
  /\ (forall link_id,
        fst (first_row db cur table_queries route_wkt link_id buffer_distance)
        = first_yielding_row
            (attempts db cur table_queries route_wkt link_id buffer_distance))
  /\ (forall item link_id rest row entry,
        linkId item = Some link_id ->
        link_id <> EmptyString ->
        first_yielding_row
          (attempts db cur table_queries route_wkt link_id buffer_distance)
        = Some row ->
        matched_entry link_id row item = Ok entry ->
        let after :=
          match_items db
            (snd (first_row db cur table_queries route_wkt link_id
                    buffer_distance))
            route_wkt buffer_distance rest in
        match_items db cur route_wkt buffer_distance (item :: rest)
        = (entry :: fst after, snd after)
        /\ Model.link_id entry = link_id
        /\ api_data entry = item
        /\ start_lng entry = row_start_lng row
        /\ start_lat entry = row_start_lat row
        /\ end_lng entry = row_end_lng row
        /\ end_lat entry = row_end_lat row
        /\ length_m entry = row_length_m row
        /\ distance_to_route_m entry = row_distance_to_route row)
  /\ (forall item link_id rest,
        linkId item = Some link_id ->
        link_id <> EmptyString ->
        first_yielding_row
          (attempts db cur table_queries route_wkt link_id buffer_distance)
        = None ->
        match_items db cur route_wkt buffer_distance (item :: rest)
        = match_items db
            (snd (first_row db cur table_queries route_wkt link_id
                    buffer_distance))
            route_wkt buffer_distance rest)
  /\ (forall g td,
        connect db = Ok cur ->
        exists out, match_traffic_to_route db g td buffer_distance = Ok out).
Proof.
  split; [reflexivity|]. split; [|split; [|split]].
  - intro link_id. apply first_row_attempts.
  - intros item link_id rest row entry Hid Hne Hrow Hentry after.
    rewrite <- first_row_attempts in Hrow. subst after.
    cbn [match_items]. unfold match_item. rewrite Hid.
    destruct link_id as [|c link_id]; [contradiction|].
    destruct (first_row db cur table_queries route_wkt (String c link_id)
                buffer_distance) as [res cur1].
    cbn [fst snd] in *. subst res. rewrite Hentry.
    destruct (match_items db cur1 route_wkt buffer_distance rest).
    split; [reflexivity|].
    unfold matched_entry in Hentry.
    destruct (float_of (speed item)); cbn in Hentry; [|discriminate].
    destruct (float_of (travelTime item)); cbn in Hentry; [|discriminate].
    injection Hentry as <-. cbn. repeat split.
  - intros item link_id rest Hid Hne Hnone.
    rewrite <- first_row_attempts in Hnone.
    cbn [match_items]. unfold match_item. rewrite Hid.
    destruct link_id as [|c link_id]; [contradiction|].
    destruct (first_row db cur table_queries route_wkt (String c link_id)
                buffer_distance) as [res cur1].
    cbn [fst snd] in *. subst res.
    destruct (match_items db cur1 route_wkt buffer_distance rest).
    reflexivity.
  - intros g td Hc.
    destruct (match_traffic_to_route_returns db cur g td buffer_distance Hc)
      as (collected & E & _).
    eexists. exact E.
Qed.

Lemma schema_fallback_witness :
  match_items sample_store 0%nat (Some [(0, 0); (1, 1)]) 50
    [reading "C" 20; reading "D" 40]
  = match_items sample_store 3%nat (Some [(0, 0); (1, 1)]) 50
    [reading "D" 40]
  /\ (exists entry,
        fst (match_items sample_store 0%nat (Some [(0, 0); (1, 1)]) 50
               [reading "A" 30])
        = [entry]
        /\ distance_to_route_m entry = 12)
  /\ match_items missing_table_store false (Some [(0, 0); (1, 1)]) 50
       [reading "A" 30; reading "B" 50]
     = match_items missing_table_store true (Some [(0, 0); (1, 1)]) 50
       [reading "B" 50].
Proof.
  split; [|split].
  - destruct (schema_fallback sample_store 0%nat (Some [(0, 0); (1, 1)]) 50)
      as (_ & _ & _ & Hdrop & _).
    apply (Hdrop (reading "C" 20) "C"%string [reading "D" 40]).
    + reflexivity.
    + discriminate.
    + reflexivity.
  - destruct (schema_fallback sample_store 0%nat (Some [(0, 0); (1, 1)]) 50)
      as (_ & _ & Huse & _).
    destruct (Huse (reading "A" 30) "A"%string [] (link_row "A" 12) _
                eq_refl ltac:(discriminate) eq_refl eq_refl)
      as (E & _ & _ & _ & _ & _ & _ & _ & Hd).
    eexists. split; [rewrite E; reflexivity | exact Hd].
  - destruct (schema_fallback missing_table_store false
                (Some [(0, 0); (1, 1)]) 50) as (_ & _ & _ & Hdrop & _).
    apply (Hdrop (reading "A" 30) "A"%string [reading "B" 50]).
    + reflexivity.
    + discriminate.
    + reflexivity.
Defined.

(** C7 fails as stated.  In a store where all three tables exist, the
    first candidate answers for link A without error and without a
    row; its row is in the second table.  The first result that is no
    error holds no row, yet the matcher goes on to the second
    candidate and appends the segment made of its row. *)
Lemma no_row_is_passed_over :
  let outcomes :=
    attempts sample_store 0%nat table_queries (Some [(0, 0); (1, 1)]) "A" 50 in
  let used :=
    fst (first_row sample_store 0%nat table_queries (Some [(0, 0); (1, 1)])
           "A" 50) in
  outcomes = [NoRow; Row (link_row "A" 12); NoRow]
  /\ first_without_error outcomes = None
  /\ used = Some (link_row "A" 12)
  /\ used <> first_without_error outcomes
  /\ exists out,
       match_traffic_to_route sample_store (GeoJSON (Some two_points))
         {| body_items := Some [reading "A" 30]; data := None |} 50
       = Ok out
       /\ map Model.link_id out = ["A"%string].
Proof.
  cbn zeta. split; [reflexivity|]. split; [reflexivity|].
  split; [reflexivity|]. split; [discriminate|].
  eexists. split; [vm_compute; reflexivity | reflexivity].
Qed.

(** A session whose first statement fails: the store has no table
    [moct_link], every later statement of the session fails as well,
    and the matcher returns no segment, although link A is in
    [moct_link_table]. *)
Example failed_session_example :
  attempts missing_table_store false table_queries (Some [(0, 0); (1, 1)])
    "A" 50 = [DbError; DbError; DbError]
  /\ match_traffic_to_route missing_table_store (GeoJSON (Some two_points))
       sample_traffic 50 = Ok [].
Proof. split; reflexivity. Qed.

End MatcherFacts.

(** * Further properties *)

(** ** Road names of the route *)

Section RoadFacts.

Import Api.

Lemma road_names_add_In (s n : string) (l : list string) :
  In n (road_names_add s l) <-> n = s \/ In n l.
Proof.
  unfold road_names_add. destruct (existsb (String.eqb s) l) eqn:E.
  - split; [now right|]. intros [->|H]; [|exact H].
    apply existsb_exists in E. destruct E as (x & Hx & Hs).
    apply String.eqb_eq in Hs. now subst.
  - rewrite in_app_iff. cbn. split.
    + intros [H|[H|[]]]; [now right | now left].
    + intros [->|H]; [right; now left | now left].
Qed.

Lemma road_names_add_NoDup (s : string) (l : list string) :
  NoDup l -> NoDup (road_names_add s l).
Proof.
  intro H. unfold road_names_add.
  destruct (existsb (String.eqb s) l) eqn:E; [exact H|].
  apply NoDup_app; [exact H | repeat constructor; intros [] |].
  intros x Hx [Hs|[]]. subst x.
  assert (existsb (String.eqb s) l = true); [|congruence].
  apply existsb_exists. exists s. split; [exact Hx | apply String.eqb_refl].
Qed.

Lemma kept_test (n : string) :
  truthy_str n && negb (n =? "unnamed")%string && negb (n =? "")%string = true
  <-> kept n.
Proof.
  unfold kept. rewrite !andb_true_iff, !negb_true_iff, !String.eqb_neq.
  split.
  - intros [[_ H] H']. split; assumption.
  - intros [H H']. repeat split; try assumption.
    destruct n; [contradiction | reflexivity].
Qed.

Lemma add_step_names_In (leg_steps : list Step) (l : list string) (n : string) :
  In n (add_step_names l leg_steps)
  <-> In n l \/ (In (Some n) (map name leg_steps) /\ kept n).
Proof.
  unfold add_step_names. revert l.
  induction leg_steps as [|st ss IH]; intro l; cbn [fold_left map].
  - cbn. tauto.
  - rewrite IH. clear IH.
    set (sn := match name st with Some n0 => n0 | None => EmptyString end).
    destruct (truthy_str sn && negb (sn =? "unnamed")%string
              && negb (sn =? "")%string) eqn:E.
    + apply kept_test in E. rewrite road_names_add_In. cbn [In].
      split.
      * intros [[->|H]|H]; [right|now left|right; tauto].
        split; [left|exact E].
        subst sn. destruct (name st); [reflexivity|].
        destruct E as [E _]. now contradiction E.
      * intros [H|[[H|H] K]]; [left; now right| |right; tauto].
        left. left. subst sn. now rewrite H.
    + cbn [In]. split; [tauto|].
      intros [H|[[H|H] K]]; [now left| |right; tauto].
      exfalso. apply kept_test in K. subst sn. rewrite H in E. congruence.
Qed.

Lemma add_step_names_NoDup (leg_steps : list Step) (l : list string) :
  NoDup l -> NoDup (add_step_names l leg_steps).
Proof.
  unfold add_step_names. revert l.
  induction leg_steps as [|st ss IH]; intros l H; cbn [fold_left].
  - exact H.
  - apply IH. destruct (_ && _ && _); [|exact H].
    now apply road_names_add_NoDup.
Qed.

Lemma add_leg_names_In (legs : list Leg) (l : list string) (n : string) :
  In n (add_leg_names l legs) <-> In n l \/ (In n (step_names legs) /\ kept n).
Proof.
  unfold add_leg_names, step_names. revert l.
  induction legs as [|leg legs IH]; intro l; cbn [fold_left flat_map].
  - cbn. tauto.
  - rewrite IH. clear IH. rewrite in_app_iff.
    destruct (steps leg) as [ss|].
    + rewrite add_step_names_In.
      assert (E : In (Some n) (map name ss)
                  <-> In n (flat_map (fun step =>
                        match name step with Some n0 => [n0] | None => [] end)
                        ss)).
      { induction ss as [|st ss IHs]; cbn; [tauto|].
        rewrite in_app_iff, <- IHs.
        destruct (name st) as [m|]; cbn; split.
        - intros [H|H]; [left; left; congruence | now right].
        - intros [[H|[]]|H]; [left; congruence | now right].
        - intros [H|H]; [discriminate | now right].
        - intros [[]|H]. now right. }
      rewrite E. tauto.
    + cbn [In]. tauto.
Qed.

Lemma add_leg_names_NoDup (legs : list Leg) (l : list string) :
  NoDup l -> NoDup (add_leg_names l legs).
Proof.
  unfold add_leg_names. revert l.
  induction legs as [|leg legs IH]; intros l H; cbn [fold_left].
  - exact H.
  - apply IH. destruct (steps leg); [|exact H].
    now apply add_step_names_NoDup.
Qed.

Lemma extract_route_roads_NoDup (route_data : RouteData) :
  NoDup (_extract_route_roads route_data).
Proof.
  unfold _extract_route_roads.
  assert (H0 : NoDup (@nil string)) by constructor.
  assert (H1 : NoDup match legs route_data with
                     | Some legs => add_leg_names [] legs
                     | None => []
                     end).
  { destruct (legs route_data); [now apply add_leg_names_NoDup | exact H0]. }
  destruct (result route_data) as [[|ri ?]|]; try exact H1.
  destruct (routes ri) as [[|r ?]|]; try exact H1.
  destruct (route_legs r); [now apply add_leg_names_NoDup | exact H1].
Qed.

Lemma extract_route_roads_In (route_data : RouteData) (n : string) :
  In n (_extract_route_roads route_data)
  <-> In n (step_names (visited_legs route_data)) /\ kept n.
Proof.
  unfold _extract_route_roads, visited_legs.
  assert (S : forall a b, step_names (a ++ b) = step_names a ++ step_names b).
  { intros a b. unfold step_names. apply flat_map_app. }
  rewrite S, in_app_iff.
  assert (D : In n match legs route_data with
                   | Some legs => add_leg_names [] legs
                   | None => []
                   end
              <-> In n (step_names match legs route_data with
                                   | Some l => l | None => [] end)
                  /\ kept n).
  { destruct (legs route_data); [rewrite add_leg_names_In|]; cbn; tauto. }
  destruct (result route_data) as [[|ri ?]|];
    try (rewrite D; cbn; tauto).
  destruct (routes ri) as [[|r ?]|]; try (rewrite D; cbn; tauto).
  destruct (route_legs r); [|rewrite D; cbn; tauto].
  rewrite add_leg_names_In, D. tauto.
Qed.

(** X1. The road names extracted from a route are exactly the names of
    the steps of the legs visited -- the direct legs and those of
    [result[0].routes[0]] -- that are neither empty nor [unnamed], and
    each is listed once. *)
Theorem route_roads_characterised (route_data : RouteData) :
  NoDup (_extract_route_roads route_data)
  /\ forall n,
       In n (_extract_route_roads route_data)
       <-> In n (step_names (visited_legs route_data))
           /\ n <> EmptyString /\ n <> "unnamed"%string.
Proof.
  split; [apply extract_route_roads_NoDup|].
  intro n. apply extract_route_roads_In.
Qed.

Lemma route_roads_characterised_witness :
  In "Gangnam-daero"%string (_extract_route_roads named_route_data)
  /\ ~ In "unnamed"%string (_extract_route_roads named_route_data).
Proof.
  destruct (route_roads_characterised named_route_data) as (_ & H). split.
  - apply H. split; [cbn; tauto | split; discriminate].
  - intro Hin. apply H in Hin. destruct Hin as (_ & _ & Hne). now apply Hne.
Defined.

End RoadFacts.

(** ** The relevance filter *)

Section FilterFacts.

Import Api.

Local Open Scope string_scope.

Lemma prefix_occurs (n h : string) :
  String.prefix n h = true <-> exists after, h = n ++ after.
Proof.
  revert h. induction n as [|a n IH]; intro h.
  - split; [intros _; now exists h | intros _; now destruct h].
  - destruct h as [|b h]; cbn.
    + split; [discriminate | intros (after & H); discriminate H].
    + destruct (ascii_dec a b) as [->|Hab].
      * rewrite IH. split; intros (after & H); exists after.
        -- now rewrite H.
        -- now injection H.
      * split; [discriminate|]. intros (after & H). injection H as H1 H2.
        congruence.
Qed.

Lemma contains_occurs (n h : string) :
  contains n h = true <-> occurs_in n h.
Proof.
  unfold occurs_in. induction h as [|c h IH]; cbn [contains].
  - rewrite orb_false_r, prefix_occurs. split.
    + intros (after & H). now exists "", after.
    + intros ([|? before] & after & H); [now exists after | discriminate H].
  - rewrite orb_true_iff, prefix_occurs, IH. split.
    + intros [(after & H)|(before & after & H)].
      * now exists "", after.
      * exists (String c before), after. cbn. now rewrite H.
    + intros ([|b before] & after & H).
      * left. now exists after.
      * right. cbn in H. injection H as _ H. now exists before, after.
Qed.

Lemma is_route_specific_occurs
  (route_roads : list string) (m : MatchedSegment) :
  is_route_specific route_roads m = true
  <-> route_roads = []
      \/ exists route_road,
           In route_road route_roads
           /\ (occurs_in (lower route_road) (lower (road_name m))
               \/ occurs_in (lower (road_name m)) (lower route_road)).
Proof.
  unfold is_route_specific. destruct route_roads as [|r0 rs].
  - cbn. split; [now left | reflexivity].
  - cbn [truthy_list]. rewrite existsb_exists. split.
    + intros (r & Hin & H). right. exists r. split; [exact Hin|].
      apply orb_true_iff in H. now rewrite <- !contains_occurs.
    + intros [H|(r & Hin & H)]; [discriminate H|].
      exists r. split; [exact Hin|].
      apply orb_true_iff. now rewrite !contains_occurs.
Qed.

(** X3. The relevance test, with [in] read as occurrence of one text
    in another: with no route road every segment passes; otherwise a
    segment passes exactly when, in lower case, some route road occurs
    in its road name or its road name occurs in some route road. *)
Theorem relevance_test_characterised
  (route_roads : list string) (m : MatchedSegment) :
  is_route_specific route_roads m = true
  <-> route_roads = []
      \/ exists route_road,
           In route_road route_roads
           /\ (occurs_in (lower route_road) (lower (road_name m))
               \/ occurs_in (lower (road_name m)) (lower route_road)).
Proof. exact (is_route_specific_occurs route_roads m). Qed.

Lemma route_specific_traffic_filter
  (route_roads : list string) (matched : list match_entry) :
  route_specific_traffic route_roads matched
  = filter (is_route_specific route_roads) (dicts matched).
Proof.
  induction matched as [|[m|] matched IH]; cbn.
  - reflexivity.
  - rewrite IH. reflexivity.
  - exact IH.
Qed.

Lemma dicts_length (matched : list match_entry) :
  (List.length (dicts matched) <= List.length matched)%nat.
Proof.
  unfold dicts. induction matched as [|[m|] matched IH]; cbn in *; lia.
Qed.

Lemma relevant_length (r : AnalysisResult) :
  (List.length (relevant r) <= List.length (matched_traffic r))%nat.
Proof.
  unfold relevant. rewrite route_specific_traffic_filter.
  eapply Nat.le_trans; [apply filter_length_le | apply dicts_length].
Qed.

(** X2. The relevant segments are the dictionaries of the matched list
    that pass the relevance test, in the order of the matched list;
    entries that are no dictionaries are left out.  So the extraction
    never reports more relevant segments than matched ones. *)
Theorem relevant_segments_selected (r : AnalysisResult) :
  relevant r
  = filter (is_route_specific (_extract_route_roads (route_data r)))
      (dicts (matched_traffic r))
  /\ forall ta,
       _extract_traffic_adjusted_route (Some r) = Ok (Some ta) ->
       (traffic_segments ta <= List.length (matched_traffic r))%nat.
Proof.
  split; [apply route_specific_traffic_filter|].
  intros ta E. destruct (relevant r) as [|m rel] eqn:Hrel.
  - destruct (Qeq_dec (duration (route_data r)) 0) as [Hz|Hnz].
    + rewrite (extract_no_relevant_raises r Hrel Hz) in E. discriminate E.
    + destruct (extract_no_relevant r Hrel Hnz) as (avg & note & E').
      rewrite E' in E. injection E as <-. cbn. lia.
  - assert (Hne : relevant r <> []) by (rewrite Hrel; discriminate).
    pose proof (extract_relevant r Hne) as E'. cbn zeta in E'.
    rewrite E' in E. injection E as <-. cbn [traffic_segments].
    apply relevant_length.
Qed.

Lemma relevant_segments_selected_witness :
  exists ta,
    _extract_traffic_adjusted_route (Some named_route) = Ok (Some ta)
    /\ (traffic_segments ta <= 2)%nat.
Proof.
  pose proof (extract_relevant named_route ltac:(discriminate)) as E.
  eexists. split; [exact E|].
  exact (proj2 (relevant_segments_selected named_route) _ E).
Defined.

(** X4. A matched segment whose road name is empty -- the matcher
    gives the empty name to a reading without [roadName] -- is always
    relevant, whatever the road names of the route. *)
Theorem empty_road_name_relevant
  (route_roads : list string) (matched : list match_entry)
  (m : MatchedSegment) :
  road_name m = "" ->
  In (Dict m) matched ->
  In m (route_specific_traffic route_roads matched).
Proof.
  intros Hname Hin. rewrite route_specific_traffic_filter.
  apply filter_In. split.
  - unfold dicts. apply in_flat_map. exists (Dict m). split; [exact Hin|].
    now left.
  - apply is_route_specific_occurs.
    destruct route_roads as [|r0 rs]; [now left|]. right.
    exists r0. split; [now left|]. right. rewrite Hname. cbn.
    now exists "", (lower r0).
Qed.

Lemma empty_road_name_relevant_witness :
  In (segment 30 5 "")
     (route_specific_traffic ["Gangnam-daero"]
        [Dict (segment 45 2 "Olympic-daero"); Dict (segment 30 5 "")]).
Proof.
  apply empty_road_name_relevant; [reflexivity | right; now left].
Defined.

Lemma relevance_test_characterised_witness :
  is_route_specific ["Gangnam-daero"] (segment 45 2 "GANGNAM-DAERO 12-gil")
  = true.
Proof.
  apply (proj2 (relevance_test_characterised _ _)). right.
  exists "Gangnam-daero". split; [now left|]. left.
  now exists "", " 12-gil".
Defined.

(** X25. Failing open, end to end: when no step of the legs visited
    carries a name that is kept, the relevant segments are all the
    dictionaries of the matched list, in order. *)
Theorem no_road_names_all_relevant (r : AnalysisResult) :
  (forall n,
     In n (step_names (visited_legs (route_data r))) ->
     n = "" \/ n = "unnamed") ->
  relevant r = dicts (matched_traffic r).
Proof.
  intro Hnone. unfold relevant.
  assert (E : _extract_route_roads (route_data r) = []).
  { destruct (_extract_route_roads (route_data r)) as [|n l] eqn:Hr;
      [reflexivity|].
    assert (Hin : In n (_extract_route_roads (route_data r)))
      by (rewrite Hr; now left).
    apply extract_route_roads_In in Hin. destruct Hin as (Hs & Hk1 & Hk2).
    destruct (Hnone n Hs); contradiction. }
  rewrite E, route_specific_traffic_filter.
  induction (dicts (matched_traffic r)) as [|m l IH]; cbn; [reflexivity|].
  now rewrite IH.
Qed.

Lemma no_road_names_all_relevant_witness :
  relevant busy_route = [segment 30 5 "A"; segment 50 7 "B"].
Proof.
  apply (no_road_names_all_relevant busy_route). intros n [].
Defined.

End FilterFacts.

(** ** Fields of the traffic-adjusted extraction *)

Section FieldFacts.

Import Api.

(** What the extraction returns, by branch. *)
Lemma extract_inversion (r : AnalysisResult) (ta : TrafficAdjusted) :
  _extract_traffic_adjusted_route (Some r) = Ok (Some ta) ->
  (relevant r = []
   /\ ~ duration (route_data r) == 0
   /\ duration_seconds ta = duration (route_data r)
   /\ time_difference_seconds ta = 0
   /\ time_difference_percent ta = 0
   /\ traffic_segments ta = 0%nat
   /\ traffic_coverage ta = no_relevant_data
   /\ speed_range ta = None)
  \/ (relevant r <> []
      /\ duration_seconds ta = traffic_duration_of r
      /\ average_speed_kmh ta
         = Py.sum (relevant_speeds r) / len (relevant_speeds r)
      /\ time_difference_seconds ta
         = traffic_duration_of r - duration (route_data r)
      /\ time_difference_percent ta
         = (if Qlt_bool 0 (duration (route_data r))
            then (traffic_duration_of r - duration (route_data r))
                 / duration (route_data r) * 100
            else 0)
      /\ traffic_segments ta = List.length (relevant r)
      /\ traffic_coverage ta
         = (if (List.length (relevant r)
                <? List.length (matched_traffic r))%nat
            then partial else good)
      /\ speed_range ta
         = Some (Py.min (relevant_speeds r), Py.max (relevant_speeds r))).
Proof.
  intro E. destruct (relevant r) as [|m rel] eqn:Hrel.
  - left. destruct (Qeq_dec (duration (route_data r)) 0) as [Hz|Hnz].
    + rewrite (extract_no_relevant_raises r Hrel Hz) in E. discriminate E.
    + destruct (extract_no_relevant r Hrel Hnz) as (avg & note & E').
      rewrite E' in E. injection E as <-. cbn. repeat split. exact Hnz.
  - right. assert (Hne : relevant r <> []) by (rewrite Hrel; discriminate).
    pose proof (extract_relevant r Hne) as E'. cbn zeta in E'.
    rewrite E' in E. injection E as <-. unfold relevant_speeds.
    rewrite Hrel. cbn. repeat split. discriminate.
Qed.

Lemma extract_some_never_none (r : AnalysisResult) :
  _extract_traffic_adjusted_route (Some r) <> Ok None.
Proof.
  intro E. destruct (relevant r) as [|m rel] eqn:Hrel.
  - destruct (Qeq_dec (duration (route_data r)) 0) as [Hz|Hnz].
    + rewrite (extract_no_relevant_raises r Hrel Hz) in E. discriminate E.
    + destruct (extract_no_relevant r Hrel Hnz) as (avg & note & E').
      rewrite E' in E. discriminate E.
  - assert (Hne : relevant r <> []) by (rewrite Hrel; discriminate).
    pose proof (extract_relevant r Hne) as E'. cbn zeta in E'.
    rewrite E' in E. discriminate E.
Qed.

(** X6. The coverage the extraction reports: [no_relevant_data]
    exactly when no segment is relevant; otherwise [good] exactly when
    as many segments are relevant as entries were matched, and
    [partial] exactly when fewer are. *)
Theorem coverage_characterised (r : AnalysisResult) (ta : TrafficAdjusted) :
  _extract_traffic_adjusted_route (Some r) = Ok (Some ta) ->
  (traffic_coverage ta = no_relevant_data <-> relevant r = [])
  /\ (traffic_coverage ta = good
      <-> relevant r <> []
          /\ List.length (relevant r) = List.length (matched_traffic r))
  /\ (traffic_coverage ta = partial
      <-> relevant r <> []
          /\ (List.length (relevant r) < List.length (matched_traffic r))%nat).
Proof.
  intro E. pose proof (relevant_length r) as Hle.
  destruct (extract_inversion r ta E)
    as [(Hrel & _ & _ & _ & _ & _ & Hc & _)
       |(Hne & _ & _ & _ & _ & _ & Hc & _)]; rewrite Hc.
  - repeat split; intros; try discriminate; try assumption; tauto.
  - destruct (List.length (relevant r) <? List.length (matched_traffic r))%nat
      eqn:L; [apply Nat.ltb_lt in L | apply Nat.ltb_ge in L].
    + repeat split; intros; try discriminate; try assumption;
        try tauto; try lia.
    + repeat split; intros; try discriminate; try assumption;
        try tauto; try lia.
Qed.

Lemma coverage_characterised_witness :
  exists ta,
    _extract_traffic_adjusted_route (Some named_route) = Ok (Some ta)
    /\ traffic_coverage ta = partial.
Proof.
  pose proof (extract_relevant named_route ltac:(discriminate)) as E.
  eexists. split; [exact E|].
  apply (coverage_characterised named_route _ E).
  split; [discriminate | vm_compute; lia].
Defined.

End FieldFacts.

Section FieldFacts2.

Import Api.

Lemma fold_min_spec (xs : list Q) (x0 : Q) :
  let m := fold_left (fun m y => if Qlt_bool y m then y else m) xs x0 in
  m <= x0 /\ Forall (fun y => m <= y) xs /\ (m = x0 \/ In m xs).
Proof.
  revert x0. induction xs as [|y xs IH]; intro x0; cbn.
  - split; [apply Qle_refl|]. split; [constructor | now left].
  - destruct (IH (if Qlt_bool y x0 then y else x0)) as (H1 & H2 & H3).
    destruct (Qlt_bool y x0) eqn:E;
      [apply Qlt_bool_iff in E | apply Qlt_bool_false_iff in E].
    + split; [apply Qlt_le_weak; eapply Qle_lt_trans; eassumption|].
      split; [now constructor|].
      destruct H3 as [H3|H3]; right; [left; now symmetry | now right].
    + split; [exact H1|]. split.
      * constructor; [eapply Qle_trans; eassumption | exact H2].
      * destruct H3 as [H3|H3]; [now left | right; now right].
Qed.

Lemma fold_max_spec (xs : list Q) (x0 : Q) :
  let m := fold_left (fun m y => if Qlt_bool m y then y else m) xs x0 in
  x0 <= m /\ Forall (fun y => y <= m) xs /\ (m = x0 \/ In m xs).
Proof.
  revert x0. induction xs as [|y xs IH]; intro x0; cbn.
  - split; [apply Qle_refl|]. split; [constructor | now left].
  - destruct (IH (if Qlt_bool x0 y then y else x0)) as (H1 & H2 & H3).
    destruct (Qlt_bool x0 y) eqn:E;
      [apply Qlt_bool_iff in E | apply Qlt_bool_false_iff in E].
    + split; [apply Qlt_le_weak; eapply Qlt_le_trans; eassumption|].
      split; [now constructor|].
      destruct H3 as [H3|H3]; right; [left; now symmetry | now right].
    + split; [exact H1|]. split.
      * constructor; [eapply Qle_trans; eassumption | exact H2].
      * destruct H3 as [H3|H3]; [now left | right; now right].
Qed.

Lemma min_max_spec (x : Q) (xs : list Q) :
  In (Py.min (x :: xs)) (x :: xs)
  /\ In (Py.max (x :: xs)) (x :: xs)
  /\ Forall (fun y => Py.min (x :: xs) <= y <= Py.max (x :: xs)) (x :: xs).
Proof.
  cbn [Py.min Py.max].
  destruct (fold_min_spec xs x) as (L1 & L2 & L3).
  destruct (fold_max_spec xs x) as (U1 & U2 & U3).
  cbn zeta in *. split; [|split].
  - destruct L3 as [->|L3]; [now left | now right].
  - destruct U3 as [->|U3]; [now left | now right].
  - constructor; [now split|].
    rewrite Forall_forall in *. intros y Hy. split; auto.
Qed.

Lemma len_positive {A : Type} (x : A) (xs : list A) : 0 < len (x :: xs).
Proof.
  unfold len. change 0 with (inject_Z 0). rewrite <- Zlt_Qlt.
  cbn [List.length]. lia.
Qed.

(** X7. The speed range of the extraction: its lower and upper bound
    are speeds of relevant segments, the lower is not above the upper,
    and every relevant speed lies between them. *)
Theorem speed_range_bounds
  (r : AnalysisResult) (ta : TrafficAdjusted) (lo hi : Q) :
  _extract_traffic_adjusted_route (Some r) = Ok (Some ta) ->
  speed_range ta = Some (lo, hi) ->
  In lo (relevant_speeds r)
  /\ In hi (relevant_speeds r)
  /\ lo <= hi
  /\ Forall (fun v => lo <= v <= hi) (relevant_speeds r).
Proof.
  intros E Hr.
  destruct (extract_inversion r ta E)
    as [(_ & _ & _ & _ & _ & _ & _ & Hs)
       |(Hne & _ & _ & _ & _ & _ & _ & Hs)]; rewrite Hs in Hr.
  - discriminate Hr.
  - injection Hr as <- <-. unfold relevant_speeds in *.
    destruct (relevant r) as [|m rel]; [congruence|]. cbn [map].
    destruct (min_max_spec (current_speed m) (map current_speed rel))
      as (Hlo & Hhi & Hall).
    split; [exact Hlo|]. split; [exact Hhi|]. split; [|exact Hall].
    inversion Hall as [|? ? [H1 H2] _]; subst. eapply Qle_trans; eassumption.
Qed.

Lemma speed_range_bounds_witness :
  exists ta,
    _extract_traffic_adjusted_route (Some busy_route) = Ok (Some ta)
    /\ speed_range ta = Some (30, 50)
    /\ Forall (fun v => 30 <= v <= 50) (relevant_speeds busy_route).
Proof.
  pose proof (extract_relevant busy_route ltac:(discriminate)) as E.
  eexists. split; [exact E|]. split; [reflexivity|].
  destruct (speed_range_bounds busy_route _ 30 50 E eq_refl)
    as (_ & _ & _ & H).
  exact H.
Defined.

Lemma time_difference_relation (r : AnalysisResult) (ta : TrafficAdjusted) :
  _extract_traffic_adjusted_route (Some r) = Ok (Some ta) ->
  time_difference_seconds ta
  == duration_seconds ta - duration (route_data r)
  /\ (0 < duration (route_data r) ->
      time_difference_percent ta
      == time_difference_seconds ta / duration (route_data r) * 100)
  /\ (duration (route_data r) <= 0 -> time_difference_percent ta = 0).
Proof.
  intro E.
  destruct (extract_inversion r ta E)
    as [(_ & _ & Hd & Ht & Hp & _)|(_ & Hd & _ & Ht & Hp & _)];
    rewrite Hd, Ht, Hp.
  - split; [ring|]. split; [|reflexivity].
    intros _. unfold Qdiv. ring.
  - split; [reflexivity|]. split; intro H.
    + apply Qlt_bool_iff in H. rewrite H. reflexivity.
    + apply Qlt_bool_false_iff in H. now rewrite H.
Qed.

(** X8. The fields of the extraction agree with each other, in either
    branch: the time difference is the returned duration less the
    planned one; the percentage is that difference over the planned
    duration, times 100, when the planned duration is positive, and 0
    when it is not. *)
Theorem time_difference_consistent (r : AnalysisResult) (ta : TrafficAdjusted) :
  _extract_traffic_adjusted_route (Some r) = Ok (Some ta) ->
  time_difference_seconds ta
  == duration_seconds ta - duration (route_data r)
  /\ (0 < duration (route_data r) ->
      time_difference_percent ta
      == time_difference_seconds ta / duration (route_data r) * 100)
  /\ (duration (route_data r) <= 0 -> time_difference_percent ta = 0).
Proof. exact (time_difference_relation r ta). Qed.

Lemma time_difference_consistent_witness :
  exists ta,
    _extract_traffic_adjusted_route (Some slow_route) = Ok (Some ta)
    /\ time_difference_seconds ta == 20
    /\ time_difference_percent ta == 20.
Proof.
  pose proof (extract_relevant slow_route ltac:(discriminate)) as E.
  eexists. split; [exact E|].
  destruct (time_difference_consistent slow_route _ E) as (H1 & H2 & _).
  split.
  - rewrite H1. vm_compute. reflexivity.
  - rewrite H2 by reflexivity. rewrite H1. vm_compute. reflexivity.
Defined.

(** X9. For a route of non-negative length and non-negative planned
    duration the duration the extraction returns is not negative,
    whatever speeds the traffic feed reports. *)
Theorem adjusted_duration_nonnegative
  (r : AnalysisResult) (ta : TrafficAdjusted) :
  _extract_traffic_adjusted_route (Some r) = Ok (Some ta) ->
  0 <= distance (route_data r) ->
  0 <= duration (route_data r) ->
  0 <= duration_seconds ta.
Proof.
  intros E Hdist Hdur.
  destruct (extract_inversion r ta E) as [(_ & _ & Hd & _)|(_ & Hd & _)];
    rewrite Hd; [exact Hdur|].
  unfold traffic_duration_of.
  destruct (Qlt_bool 0 _) eqn:Havg; [|exact Hdur].
  apply Qlt_bool_iff in Havg.
  apply Qmult_le_0_compat; [|discriminate].
  apply Qle_shift_div_l; [exact Havg|]. rewrite Qmult_0_l.
  apply Qle_shift_div_l; [reflexivity|]. now rewrite Qmult_0_l.
Qed.

Lemma adjusted_duration_nonnegative_witness :
  exists ta,
    _extract_traffic_adjusted_route (Some busy_route) = Ok (Some ta)
    /\ 0 <= duration_seconds ta.
Proof.
  pose proof (extract_relevant busy_route ltac:(discriminate)) as E.
  eexists. split; [exact E|].
  apply (adjusted_duration_nonnegative busy_route _ E); discriminate.
Defined.

End FieldFacts2.

(** ** The simplified extraction and the recommendations *)

Section AdviceFacts.

Import Api.

(** X10. A planned duration that is not positive is never reported
    as a delay: whenever the extraction returns for such a route, the
    percentage is 0 and the condition of the simplified output is
    [normal], whatever speeds the relevant segments report. *)
Theorem nonpositive_duration_normal
  (r : AnalysisResult) (ta : TrafficAdjusted) (s : SimpleRoute) :
  _extract_traffic_adjusted_route (Some r) = Ok (Some ta) ->
  _extract_traffic_adjusted_route_simple (Some r) = Ok s ->
  duration (route_data r) <= 0 ->
  time_difference_percent ta = 0
  /\ traffic_condition s = normal.
Proof.
  intros E Es Hd.
  destruct (simple_condition (Some r) ta E) as (s' & Es' & Hc).
  rewrite Es in Es'. injection Es' as <-. rewrite Hc.
  destruct (time_difference_relation r ta E) as (_ & _ & H0).
  rewrite (H0 Hd). split; reflexivity.
Qed.

Lemma nonpositive_duration_normal_witness :
  exists ta s,
    _extract_traffic_adjusted_route (Some (analysis 0 1000 [segment 5 3 "A"]))
    = Ok (Some ta)
    /\ _extract_traffic_adjusted_route_simple
         (Some (analysis 0 1000 [segment 5 3 "A"])) = Ok s
    /\ traffic_condition s = normal.
Proof.
  pose proof (extract_relevant (analysis 0 1000 [segment 5 3 "A"])
                ltac:(discriminate)) as E.
  destruct (simple_condition _ _ E) as (s & Es & _).
  eexists. exists s. split; [exact E|]. split; [exact Es|].
  apply (nonpositive_duration_normal _ _ s E Es). discriminate.
Defined.

(** X11. The simplified extraction never reports the condition
    [no_data]: for an analysis result it classifies or raises what the
    extraction raises, and for a missing result it raises [TypeError]
    where the [no_data] dictionary reads the duration. *)
Theorem simple_never_no_data :
  _extract_traffic_adjusted_route_simple None = Raise TypeError
  /\ forall result s,
       _extract_traffic_adjusted_route_simple result = Ok s ->
       traffic_condition s <> no_data.
Proof.
  split; [reflexivity|]. intros [r|] s Es; [|discriminate Es].
  destruct (_extract_traffic_adjusted_route (Some r)) as [[ta|]|e] eqn:E.
  - destruct (simple_condition (Some r) ta E) as (s' & Es' & Hc).
    rewrite Es in Es'. injection Es' as <-. rewrite Hc.
    unfold condition_of.
    destruct (Qlt_bool 20 _); [discriminate|].
    destruct (Qlt_bool 10 _); [discriminate|].
    destruct (Qlt_bool _ (-10)); discriminate.
  - now apply extract_some_never_none in E.
  - unfold _extract_traffic_adjusted_route_simple in Es.
    rewrite E in Es. discriminate Es.
Qed.

Lemma simple_never_no_data_witness :
  exists s,
    _extract_traffic_adjusted_route_simple (Some quiet_route) = Ok s
    /\ traffic_condition s <> no_data.
Proof.
  destruct (extract_no_relevant quiet_route eq_refl ltac:(discriminate))
    as (avg & note & E).
  destruct (simple_condition _ _ E) as (s & Es & _).
  exists s. split; [exact Es|].
  exact (proj2 simple_never_no_data _ _ Es).
Defined.

End AdviceFacts.

Section AdviceFacts2.

Import Api.

Local Open Scope string_scope.
Local Open Scope list_scope.

(** The recommendation list for a non-empty relevant segment list: the
    advice on the time difference, one note on the flow, and at most
    one note on the coverage. *)
Lemma recommendations_relevant (r : AnalysisResult) (ta : TrafficAdjusted) :
  _extract_traffic_adjusted_route (Some r) = Ok (Some ta) ->
  relevant r <> [] ->
  exists minutes time_advice flow_note coverage_note,
    _generate_recommendations (Some r)
    = Ok (time_advice ++ [Advice flow_note] ++ coverage_note)
    /\ (time_advice
        = [ExpectLonger minutes;
           Advice "Consider departing earlier or finding an alternative route"]
        \/ time_advice = [ArriveEarlier (Qabs minutes)]
        \/ time_advice
           = [Advice "Current traffic conditions are close to normal expectations"])
    /\ (flow_note = "Heavy traffic detected on monitored segments"
        \/ flow_note = "Moderate traffic on monitored segments"
        \/ flow_note = "Good traffic flow on monitored segments")
    /\ (coverage_note = []
        \/ coverage_note = [LimitedCoverage (traffic_segments ta)]).
Proof.
  intros E Hne.
  destruct (extract_inversion r ta E)
    as [(Hrel & _)|(_ & _ & _ & _ & _ & Hn & Hc & _)]; [contradiction|].
  unfold _generate_recommendations. rewrite E. cbn [bind].
  assert (Hpos : exists n, traffic_segments ta = S n).
  { rewrite Hn. destruct (relevant r); [contradiction | now eexists]. }
  destruct Hpos as (n & Hpos).
  rewrite truediv_ok by discriminate. cbn [bind]. rewrite Hpos.
  cbn [Nat.eqb Nat.ltb Nat.leb app].
  exists (time_difference_seconds ta / 60).
  destruct (traffic_coverage ta) eqn:Hcov.
  { destruct (_ <? _)%nat in Hc; discriminate Hc. }
  all: destruct (Qlt_bool 5 _);
    [|destruct (Qlt_bool (time_difference_seconds ta / 60) (-2))];
    (destruct (Qlt_bool (average_speed_kmh ta) 20);
     [|destruct (Qlt_bool (average_speed_kmh ta) 30)]);
    destruct (Qlt_bool (of_nat (S n)) _);
    cbn [app];
    match goal with
    | |- exists _ _ _, Ok [?a; ?b; Advice ?f; ?c] = _ /\ _ =>
        exists [a; b], f, [c]
    | |- exists _ _ _, Ok [?a; ?b; Advice ?f] = _ /\ _ =>
        exists [a; b], f, []
    | |- exists _ _ _, Ok [?a; Advice ?f; ?c] = _ /\ _ =>
        exists [a], f, [c]
    | |- exists _ _ _, Ok [?a; Advice ?f] = _ /\ _ =>
        exists [a], f, []
    end;
    (split; [reflexivity|]); tauto.
Qed.

End AdviceFacts2.

Section AdviceFacts3.

Import Api.

Local Open Scope string_scope.
Local Open Scope list_scope.

Lemma recommendations_no_relevant (r : AnalysisResult) (ta : TrafficAdjusted) :
  _extract_traffic_adjusted_route (Some r) = Ok (Some ta) ->
  relevant r = [] ->
  _generate_recommendations (Some r) = Ok no_relevant_data_advice.
Proof.
  intros E Hrel.
  destruct (extract_inversion r ta E)
    as [(_ & _ & _ & _ & _ & _ & Hc & _)|(Hne & _)]; [|contradiction].
  unfold _generate_recommendations. rewrite E. cbn [bind]. now rewrite Hc.
Qed.

(** X12. The recommendation generator and the extraction fail
    together: for an analysis result it raises exactly what the
    extraction raises, and when the extraction returns it returns a
    list of two to four entries.  For a missing result it returns the
    single advisory that the route cannot be analysed. *)
Theorem recommendations_shape :
  _generate_recommendations None
  = Ok [Advice "Unable to analyze traffic for this route"]
  /\ forall r,
       (forall e,
          _extract_traffic_adjusted_route (Some r) = Raise e ->
          _generate_recommendations (Some r) = Raise e)
       /\ (forall ta,
             _extract_traffic_adjusted_route (Some r) = Ok (Some ta) ->
             exists recs,
               _generate_recommendations (Some r) = Ok recs
               /\ (2 <= List.length recs <= 4)%nat).
Proof.
  split; [reflexivity|]. intro r. split.
  - intros e E. unfold _generate_recommendations. now rewrite E.
  - intros ta E. destruct (relevant r) as [|m rel] eqn:Hrel.
    + eexists. split; [exact (recommendations_no_relevant r ta E Hrel)|].
      cbn. lia.
    + assert (Hne : relevant r <> []) by (rewrite Hrel; discriminate).
      destruct (recommendations_relevant r ta E Hne)
        as (minutes & t & f & c & G & Ht & _ & Hcv).
      eexists. split; [exact G|]. rewrite !length_app.
      destruct Ht as [->|[->| ->]]; destruct Hcv as [->| ->]; cbn; lia.
Qed.

Lemma recommendations_shape_witness :
  exists recs,
    _generate_recommendations (Some busy_route) = Ok recs
    /\ (2 <= List.length recs <= 4)%nat.
Proof.
  pose proof (extract_relevant busy_route ltac:(discriminate)) as E.
  exact (proj2 (proj2 recommendations_shape busy_route) _ E).
Defined.

(** X13. Two branches of the generator are never taken for an
    analysis result: no list it returns holds the advisories for zero
    traffic segments ("Limited traffic data available for this route",
    "Use original route time estimate with caution"), and none is the
    advisory for a missing extraction. *)
Theorem recommendations_dead_branches
  (r : AnalysisResult) (recs : list recommendation) :
  _generate_recommendations (Some r) = Ok recs ->
  ~ In (Advice "Limited traffic data available for this route") recs
  /\ ~ In (Advice "Use original route time estimate with caution") recs
  /\ recs <> [Advice "No traffic data available for this specific route"].
Proof.
  intro G.
  destruct (_extract_traffic_adjusted_route (Some r)) as [[ta|]|e] eqn:E.
  - destruct (relevant r) as [|m rel] eqn:Hrel.
    + rewrite (recommendations_no_relevant r ta E Hrel) in G.
      injection G as <-. cbn.
      repeat split; try discriminate;
        intros [H|[H|[H|[]]]]; discriminate H.
    + assert (Hne : relevant r <> []) by (rewrite Hrel; discriminate).
      destruct (recommendations_relevant r ta E Hne)
        as (minutes & t & f & c & G' & Ht & Hf & Hcv).
      rewrite G' in G. injection G as <-.
      destruct Ht as [->|[->| ->]]; destruct Hf as [->|[->| ->]];
        destruct Hcv as [->| ->]; cbn;
        (repeat split; try discriminate;
         repeat (let H := fresh in intros [H|H]; [discriminate H|revert H]);
         intros []).
  - now apply extract_some_never_none in E.
  - unfold _generate_recommendations in G. rewrite E in G. discriminate G.
Qed.

Lemma recommendations_dead_branches_witness :
  exists recs,
    _generate_recommendations (Some quiet_route) = Ok recs
    /\ ~ In (Advice "Limited traffic data available for this route") recs.
Proof.
  destruct (extract_no_relevant quiet_route eq_refl ltac:(discriminate))
    as (avg & note & E).
  pose proof (recommendations_no_relevant quiet_route _ E eq_refl) as G.
  eexists. split; [exact G|].
  exact (proj1 (recommendations_dead_branches _ _ G)).
Defined.

End AdviceFacts3.

(** ** The original-format output *)

Section FormatFacts.

Import Api RouteProcessor ApiFormat.

Lemma format_value (r : AnalysisResult) (geometry : option route_geometry) :
  exists f res route leg,
    _generate_traffic_adjusted_route_original_format (Some r) geometry
    = Ok (Some f)
    /\ format_result f = [res]
    /\ format_routes res = [route]
    /\ format_legs route = [leg]
    /\ format_duration route = adjusted_duration_of r
    /\ leg_duration leg = adjusted_duration_of r
    /\ format_distance route = distance (route_data r)
    /\ leg_distance leg = distance (route_data r)
    /\ format_geometry route
       = match geometry with Some g => g | None => Encoded "" end
    /\ original_duration (traffic_metadata f) = duration (route_data r)
    /\ traffic_adjusted_duration (traffic_metadata f) = adjusted_duration_of r
    /\ metadata_time_difference_seconds (traffic_metadata f)
       = adjusted_duration_of r - duration (route_data r)
    /\ metadata_time_difference_percent (traffic_metadata f)
       = (if Qlt_bool 0 (duration (route_data r))
          then (adjusted_duration_of r - duration (route_data r))
               / duration (route_data r) * 100
          else 0)
    /\ traffic_segments_used (traffic_metadata f) = List.length (relevant r)
    /\ average_traffic_speed_kmh (traffic_metadata f)
       = (if truthy_list (relevant r)
          then Py.sum (relevant_speeds r) / len (relevant r)
          else 0).
Proof.
  unfold _generate_traffic_adjusted_route_original_format,
    adjusted_duration_of, traffic_duration_of, relevant_speeds.
  fold (relevant r).
  destruct (relevant r) as [|m rel] eqn:Hrel; cbn [truthy_list].
  - cbn [bind].
    destruct (Qlt_bool 0 (duration (route_data r))) eqn:Hdur.
    + apply Qlt_bool_iff in Hdur.
      rewrite truediv_ok by (intro H; rewrite H in Hdur; discriminate Hdur).
      cbn [bind]. do 4 eexists. split; [reflexivity|]. cbn.
      repeat split.
    + cbn [bind]. do 4 eexists. split; [reflexivity|]. cbn. repeat split.
  - set (speeds := map current_speed (m :: rel)).
    assert (Hlen : ~ len speeds == 0).
    { pose proof (len_positive (current_speed m) (map current_speed rel)) as P.
      intro H. change (len speeds) with
        (len (current_speed m :: map current_speed rel)) in H.
      rewrite H in P. discriminate P. }
    assert (Hlen' : ~ len (m :: rel) == 0).
    { pose proof (len_positive m rel) as P. intro H. rewrite H in P.
      discriminate P. }
    rewrite (truediv_ok _ _ Hlen). cbn [bind].
    rewrite (truediv_ok _ 1000 thousand_nonzero). cbn [bind].
    rewrite (truediv_ok _ _ Hlen').
    destruct (Qlt_bool 0 (Py.sum speeds / len speeds)) eqn:Havg.
    + apply Qlt_bool_iff in Havg.
      rewrite truediv_ok by (intro H; rewrite H in Havg; discriminate Havg).
      cbn [bind].
      destruct (Qlt_bool 0 (duration (route_data r))) eqn:Hdur.
      * apply Qlt_bool_iff in Hdur.
        rewrite truediv_ok by (intro H; rewrite H in Hdur; discriminate Hdur).
        cbn [bind]. do 4 eexists. split; [reflexivity|]. cbn. repeat split.
      * cbn [bind]. do 4 eexists. split; [reflexivity|]. cbn. repeat split.
    + cbn [bind].
      destruct (Qlt_bool 0 (duration (route_data r))) eqn:Hdur.
      * apply Qlt_bool_iff in Hdur.
        rewrite truediv_ok by (intro H; rewrite H in Hdur; discriminate Hdur).
        cbn [bind]. do 4 eexists. split; [reflexivity|]. cbn. repeat split.
      * cbn [bind]. do 4 eexists. split; [reflexivity|]. cbn. repeat split.
Qed.

(** X14. The original-format function returns for every analysis
    result and every geometry -- also for a planned duration of zero,
    where the extraction raises.  Its route, the single leg of that
    route and its metadata carry one and the same adjusted duration,
    which is the planned duration when no segment is relevant; route
    and leg carry the distance of the route document, and the geometry
    is passed through. *)
Theorem original_format_returns
  (r : AnalysisResult) (geometry : option route_geometry) :
  exists f res route leg,
    _generate_traffic_adjusted_route_original_format (Some r) geometry
    = Ok (Some f)
    /\ format_result f = [res]
    /\ format_routes res = [route]
    /\ format_legs route = [leg]
    /\ format_duration route = traffic_adjusted_duration (traffic_metadata f)
    /\ leg_duration leg = traffic_adjusted_duration (traffic_metadata f)
    /\ (relevant r = [] ->
        traffic_adjusted_duration (traffic_metadata f)
        = duration (route_data r))
    /\ format_distance route = distance (route_data r)
    /\ leg_distance leg = distance (route_data r)
    /\ format_geometry route
       = match geometry with Some g => g | None => Encoded "" end.
Proof.
  destruct (format_value r geometry)
    as (f & res & route & leg & E & H1 & H2 & H3 & H4 & H5 & H6 & H7 & H8
        & _ & H10 & _).
  exists f, res, route, leg. rewrite H10.
  repeat (split; [assumption|]). split; [|repeat split; assumption].
  intro Hrel. unfold adjusted_duration_of. now rewrite Hrel.
Qed.

Lemma original_format_returns_witness :
  _extract_traffic_adjusted_route (Some point_route) = Raise ZeroDivisionError
  /\ exists f,
       _generate_traffic_adjusted_route_original_format (Some point_route)
         None = Ok (Some f)
       /\ traffic_adjusted_duration (traffic_metadata f) = 0.
Proof.
  split; [reflexivity|].
  destruct (original_format_returns point_route None)
    as (f & res & route & leg & E & _ & _ & _ & _ & _ & H & _).
  exists f. split; [exact E | exact (H eq_refl)].
Defined.

(** X15. Where the extraction returns, the metadata of the original
    format agree with it on the adjusted duration, the time difference,
    its percentage and the number of relevant segments, and, when some
    segment is relevant, on the average speed. *)
Theorem original_format_agrees
  (r : AnalysisResult) (geometry : option route_geometry)
  (ta : TrafficAdjusted) (f : OriginalFormat) :
  _extract_traffic_adjusted_route (Some r) = Ok (Some ta) ->
  _generate_traffic_adjusted_route_original_format (Some r) geometry
  = Ok (Some f) ->
  traffic_adjusted_duration (traffic_metadata f) = duration_seconds ta
  /\ metadata_time_difference_seconds (traffic_metadata f)
     == time_difference_seconds ta
  /\ metadata_time_difference_percent (traffic_metadata f)
     == time_difference_percent ta
  /\ traffic_segments_used (traffic_metadata f) = traffic_segments ta
  /\ (relevant r <> [] ->
      average_traffic_speed_kmh (traffic_metadata f) == average_speed_kmh ta).
Proof.
  intros E F.
  destruct (format_value r geometry)
    as (f' & res & route & leg & F' & _ & _ & _ & _ & _ & _ & _ & _
        & _ & Hd & Ht & Hp & Hn & Ha).
  rewrite F in F'. injection F' as <-. rewrite Hd, Ht, Hp, Hn, Ha.
  unfold adjusted_duration_of.
  destruct (extract_inversion r ta E)
    as [(Hrel & _ & Hd' & Ht' & Hp' & Hn' & _)
       |(Hne & Hd' & Ha' & Ht' & Hp' & Hn' & _)];
    rewrite Hd', Ht', Hp', Hn'.
  - rewrite Hrel. cbn [List.length]. split; [reflexivity|].
    split; [ring|]. split; [|split; [reflexivity | contradiction]].
    destruct (Qlt_bool 0 _); [|reflexivity]. unfold Qdiv. ring.
  - rewrite Ha'. unfold relevant_speeds.
    destruct (relevant r) as [|m rel] eqn:Hrel; [contradiction|].
    cbn [truthy_list]. repeat split; try reflexivity.
    intros _. unfold len. now rewrite length_map.
Qed.

Lemma original_format_agrees_witness :
  exists ta f,
    _extract_traffic_adjusted_route (Some busy_route) = Ok (Some ta)
    /\ _generate_traffic_adjusted_route_original_format (Some busy_route)
         None = Ok (Some f)
    /\ traffic_adjusted_duration (traffic_metadata f) = duration_seconds ta.
Proof.
  pose proof (extract_relevant busy_route ltac:(discriminate)) as E.
  destruct (format_value busy_route None) as (f & _ & _ & _ & F & _).
  eexists. exists f. split; [exact E|]. split; [exact F|].
  exact (proj1 (original_format_agrees busy_route None _ f E F)).
Defined.

End FormatFacts.

(** ** Geometry and the matcher, further *)

Section MatcherFacts2.

Import RouteProcessor.

Lemma usable_points_length (coords : list coord) :
  (List.length (usable_points coords) <= List.length coords)%nat.
Proof.
  unfold usable_points.
  induction coords as [|[|x [|y c]] coords IH]; cbn in *; lia.
Qed.

(** X16. The line builder returns a line exactly when at least two
    coordinates have two components or more; the line then has one
    point per such coordinate, in order, made of its first two
    components.  Shorter coordinates are left out without error. *)
Theorem linestring_characterised (coords : list coord) :
  (forall pts,
     _coords_to_linestring_wkt coords = Some pts
     <-> pts = usable_points coords /\ (2 <= List.length pts)%nat)
  /\ (_coords_to_linestring_wkt coords = None
      <-> (List.length (usable_points coords) < 2)%nat).
Proof.
  pose proof (usable_points_length coords) as Hle.
  unfold _coords_to_linestring_wkt. fold (usable_points coords).
  destruct coords as [|c0 coords].
  - cbn. split.
    + intro pts. split; [discriminate|]. intros [-> H]. cbn in H. lia.
    + split; [intros _; lia | reflexivity].
  - cbn [truthy_list negb orb].
    destruct (List.length (c0 :: coords) <? 2)%nat eqn:L2;
      [apply Nat.ltb_lt in L2 | apply Nat.ltb_ge in L2].
    + split.
      * intro pts. split; [discriminate|]. intros [-> H]. lia.
      * split; [intros _; lia | reflexivity].
    + destruct (List.length (usable_points (c0 :: coords)) <? 2)%nat eqn:U2;
        [apply Nat.ltb_lt in U2 | apply Nat.ltb_ge in U2].
      * split.
        -- intro pts. split; [discriminate|]. intros [-> H]. lia.
        -- split; [intros _; exact U2 | reflexivity].
      * split.
        -- intro pts. split.
           ++ intro H. injection H as <-. split; [reflexivity | exact U2].
           ++ intros [-> _]. reflexivity.
        -- split; [discriminate | lia].
Qed.

Lemma linestring_characterised_witness :
  _coords_to_linestring_wkt [[1; 2; 3]; [4]; []; [5; 6]]
  = Some [(1, 2); (5, 6)].
Proof.
  apply (proj1 (linestring_characterised [[1; 2; 3]; [4]; []; [5; 6]])).
  split; [reflexivity | cbn; lia].
Defined.

(** X17. A feed without readings matches nothing: when the feed holds
    no item the matcher returns the empty list for every geometry.
    The readings are those of [body.items] whenever that key is
    present, so an empty [body.items] yields the empty list even when
    [data] holds readings. *)
Theorem empty_feed_matches_nothing
  (db : Database) (cur : cursor db) (g : route_geometry) (td : TrafficData)
  (buffer_distance : Q) :
  connect db = Ok cur ->
  (traffic_items_of td = [] ->
   match_traffic_to_route db g td buffer_distance = Ok [])
  /\ (body_items td = Some [] ->
      match_traffic_to_route db g td buffer_distance = Ok [])
  /\ (body_items td = None -> data td = None ->
      match_traffic_to_route db g td buffer_distance = Ok []).
Proof.
  intro Hc.
  assert (H : traffic_items_of td = [] ->
              match_traffic_to_route db g td buffer_distance = Ok []).
  { intro H. unfold match_traffic_to_route. rewrite Hc, H. reflexivity. }
  split; [exact H|]. split.
  - intro Hb. apply H. unfold traffic_items_of. now rewrite Hb.
  - intros Hb Hd. apply H. unfold traffic_items_of. now rewrite Hb, Hd.
Qed.

Lemma empty_feed_matches_nothing_witness :
  match_traffic_to_route sample_store (GeoJSON (Some two_points))
    {| body_items := Some []; data := Some [reading "A" 30] |} 50
  = Ok [].
Proof.
  destruct (empty_feed_matches_nothing sample_store 0%nat
              (GeoJSON (Some two_points))
              {| body_items := Some []; data := Some [reading "A" 30] |} 50
              eq_refl) as (_ & H & _).
  apply H. reflexivity.
Defined.

End MatcherFacts2.

Section MatcherFacts3.

Import RouteProcessor.

Context (db : Database).
Context (route_wkt : option linestring) (buffer_distance : Q).

Lemma first_row_from_store
  (queries : list table_query) (cur cur' : cursor db) (link_id : string)
  (r : LinkRow) :
  first_row db cur queries route_wkt link_id buffer_distance = (Some r, cur') ->
  exists query cur1,
    In query queries
    /\ execute db cur1 query route_wkt link_id buffer_distance = (Row r, cur').
Proof.
  revert cur. induction queries as [|q queries IH]; intro cur; cbn.
  - discriminate.
  - destruct (execute db cur q route_wkt link_id buffer_distance)
      as [[row| |] cur1] eqn:E.
    + intro H. injection H as <- <-. exists q, cur. split; [now left|exact E].
    + intro H. destruct (IH cur1 H) as (q' & c & Hin & Hex).
      exists q', c. split; [now right | exact Hex].
    + intro H. destruct (IH cur1 H) as (q' & c & Hin & Hex).
      exists q', c. split; [now right | exact Hex].
Qed.

Lemma match_item_provenance
  (cur cur' : cursor db) (item : TrafficItem) (m : MatchedSegment) :
  match_item db cur route_wkt buffer_distance item = (Some m, cur') ->
  api_data m = item
  /\ from_reading m
  /\ from_store db route_wkt buffer_distance m.
Proof.
  unfold match_item.
  destruct (linkId item) as [[|c id]|] eqn:Hid; try discriminate.
  destruct (first_row _ _ _ _ _ _) as [[r|] cur1] eqn:Hrow; try discriminate.
  unfold matched_entry.
  destruct (float_of (speed item)) as [v|] eqn:Hv; cbn; try discriminate.
  destruct (float_of (travelTime item)) as [t|] eqn:Ht; cbn; try discriminate.
  intro H. injection H as <- _. cbn. split; [reflexivity|]. split.
  - unfold from_reading. cbn. repeat split; try assumption. discriminate.
  - destruct (first_row_from_store _ _ _ _ _ Hrow) as (q & c0 & Hin & Hex).
    exists q, c0, cur1, r. cbn. repeat split; assumption.
Qed.

Lemma match_items_provenance (items : list TrafficItem) (cur : cursor db) :
  Forall
    (fun m =>
       In (api_data m) items
       /\ from_reading m
       /\ from_store db route_wkt buffer_distance m)
    (fst (match_items db cur route_wkt buffer_distance items)).
Proof.
  revert cur. induction items as [|item items IH]; intro cur; cbn.
  - constructor.
  - destruct (match_item db cur route_wkt buffer_distance item)
      as [[entry|] cur1] eqn:E;
      specialize (IH cur1);
      destruct (match_items db cur1 route_wkt buffer_distance items)
        as [matched cur2]; cbn in *.
    + destruct (match_item_provenance _ _ _ _ E) as (Ha & Hr & Hs).
      constructor.
      * split; [left; now symmetry | now split].
      * eapply Forall_impl; [|exact IH]. cbn. intros m (H1 & H2). tauto.
    + eapply Forall_impl; [|exact IH]. cbn. intros m (H1 & H2). tauto.
Qed.

Lemma match_items_length (items : list TrafficItem) (cur : cursor db) :
  (List.length (fst (match_items db cur route_wkt buffer_distance items))
   <= List.length items)%nat.
Proof.
  revert cur. induction items as [|item items IH]; intro cur; cbn.
  - lia.
  - destruct (match_item db cur route_wkt buffer_distance item)
      as [[entry|] cur1];
      specialize (IH cur1);
      destruct (match_items db cur1 route_wkt buffer_distance items)
        as [matched cur2]; cbn in *; lia.
Qed.

End MatcherFacts3.

Section MatcherFacts4.

Import RouteProcessor.

(** X18. Every segment the matcher returns comes from the inputs: it
    belongs to a reading of the feed whose link identifier is not
    empty, carries that identifier and the speed, travel time, road
    name and date of that reading, and carries the coordinates, length
    and distance of a row that the store returned to one of the three
    candidates for that identifier.  The matcher returns no more
    segments than the feed has readings. *)
Theorem matched_segments_provenance
  (db : Database) (cur : cursor db) (g : route_geometry) (td : TrafficData)
  (buffer_distance : Q) (out : list MatchedSegment) :
  connect db = Ok cur ->
  match_traffic_to_route db g td buffer_distance = Ok out ->
  Forall
    (fun m =>
       In (api_data m) (traffic_items_of td)
       /\ from_reading m
       /\ from_store db (_coords_to_linestring_wkt (route_coords_of g))
            buffer_distance m)
    out
  /\ (List.length out <= List.length (traffic_items_of td))%nat.
Proof.
  intros Hc E. unfold match_traffic_to_route in E. rewrite Hc in E.
  cbn [bind] in E.
  destruct (truthy_list (traffic_items_of td)); cbn [negb] in E.
  2:{ injection E as <-. split; [constructor | cbn; lia]. }
  destruct (truthy_list (route_coords_of g)); cbn [negb] in E.
  2:{ injection E as <-. split; [constructor | cbn; lia]. }
  pose proof (match_items_provenance db
                (_coords_to_linestring_wkt (route_coords_of g))
                buffer_distance (traffic_items_of td) cur) as Hp.
  pose proof (match_items_length db
                (_coords_to_linestring_wkt (route_coords_of g))
                buffer_distance (traffic_items_of td) cur) as Hl.
  destruct (match_items db cur _ buffer_distance (traffic_items_of td))
    as [matched cur']. cbn [fst] in *. injection E as <-.
  pose proof (sort_by_distance_perm matched) as P. split.
  - eapply Permutation_Forall; eassumption.
  - rewrite <- (Permutation_length P). exact Hl.
Qed.

Lemma matched_segments_provenance_witness :
  exists out,
    match_traffic_to_route sample_store (GeoJSON (Some two_points))
      sample_traffic 50 = Ok out
    /\ Forall from_reading out
    /\ (List.length out <= 5)%nat.
Proof.
  destruct (match_traffic_to_route_returns sample_store 0%nat
              (GeoJSON (Some two_points)) sample_traffic 50 eq_refl)
    as (collected & E & _).
  eexists. split; [exact E|].
  destruct (matched_segments_provenance sample_store 0%nat _ _ _ _ eq_refl E)
    as (Hall & Hlen).
  split; [|exact Hlen].
  eapply Forall_impl; [|exact Hall]. cbn. tauto.
Defined.

End MatcherFacts4.

(** ** The updated route *)

Section UpdatedRouteFacts.

Import RouteProcessor.

Lemma moving_cons (link : MatchedSegment) (links : list MatchedSegment) :
  moving (link :: links)
  = if Qlt_bool 0 (current_speed link) then link :: moving links
    else moving links.
Proof. reflexivity. Qed.

(** The accumulating loop never divides by zero, and adds up the times
    of the links that move. *)
Lemma estimate_time_sum (links : list MatchedSegment) (acc : Q) :
  exists t,
    estimate_time links acc = Ok t
    /\ t == acc + fold_right Qplus 0 (map link_seconds (moving links)).
Proof.
  revert acc. induction links as [|link links IH]; intro acc.
  - exists acc. split; [reflexivity|]. cbn. ring.
  - cbn [estimate_time]. rewrite moving_cons.
    destruct (Qlt_bool 0 (current_speed link)) eqn:Hs.
    + apply Qlt_bool_iff in Hs.
      rewrite (truediv_ok _ 1000 thousand_nonzero). cbn [bind].
      rewrite truediv_ok by (intro H; rewrite H in Hs; discriminate Hs).
      cbn [bind].
      destruct (IH (acc + length_m link / 1000 / current_speed link * 3600))
        as (t & Et & Ht).
      exists t. split; [exact Et|]. rewrite Ht. cbn [map fold_right].
      unfold link_seconds. ring.
    + destruct (IH acc) as (t & Et & Ht). exists t. split; assumption.
Qed.

(** X19. [calculate_updated_route] returns whenever the response has a
    route and the store is connected: no speed reported by the feed
    makes it divide by zero.  Its matched traffic is what the matcher
    returns for the geometry of the first route; without matched
    traffic it gives no metrics; with matched traffic the metrics hold
    the number of segments, the mean of their speeds, the sum of their
    lengths, and an estimated time that adds up the travel times of
    the segments reporting a positive speed only.  A response without
    routes raises [IndexError]. *)
Theorem updated_route_returns
  (db : Database) (cur : cursor db) (original_route : OsrmResponse)
  (td : TrafficData) :
  (osrm_routes original_route = [] ->
   calculate_updated_route db original_route td = Raise IndexError)
  /\ (forall route others,
        connect db = Ok cur ->
        osrm_routes original_route = route :: others ->
        exists u,
          calculate_updated_route db original_route td = Ok u
          /\ updated_original_route u = original_route
          /\ match_traffic_to_route db
               match osrm_geometry route with
               | Some g => g
               | None => Encoded ""
               end td 50
             = Ok (updated_matched_traffic u)
          /\ (updated_matched_traffic u = [] -> route_metrics u = None)
          /\ (updated_matched_traffic u <> [] ->
              exists m,
                route_metrics u = Some m
                /\ matched_segments m
                   = List.length (updated_matched_traffic u)
                /\ avg_speed_kmh m
                   == mean (map current_speed (updated_matched_traffic u))
                /\ total_length_m m
                   == fold_right Qplus 0
                        (map length_m (updated_matched_traffic u))
                /\ estimated_time_s m
                   == fold_right Qplus 0
                        (map link_seconds
                           (moving (updated_matched_traffic u))))).
Proof.
  split.
  - intro Hr. unfold calculate_updated_route. now rewrite Hr.
  - intros route others Hc Hr. unfold calculate_updated_route. rewrite Hr.
    cbn [bind].
    destruct (match_traffic_to_route_returns db cur
                match osrm_geometry route with
                | Some g => g
                | None => Encoded ""
                end td 50 Hc) as (collected & E & _).
    rewrite E. cbn [bind].
    destruct (sort_by_distance collected) as [|m0 matched] eqn:Hs;
      cbn [truthy_list].
    + eexists. split; [reflexivity|]. cbn.
      repeat split; try reflexivity. intro H. now contradiction H.
    + assert (Hlen : ~ inject_Z (Z.of_nat (List.length (m0 :: matched))) == 0).
      { pose proof (len_positive m0 matched) as P. unfold len in P.
        intro H. rewrite H in P. discriminate P. }
      rewrite (truediv_ok _ _ Hlen). cbn [bind].
      destruct (estimate_time_sum (m0 :: matched) 0) as (t & Et & Ht).
      rewrite Et. cbn [bind]. eexists. split; [reflexivity|].
      cbn [updated_original_route updated_matched_traffic route_metrics].
      split; [reflexivity|]. split; [reflexivity|].
      split; [discriminate|]. intros _. eexists. split; [reflexivity|].
      cbn [matched_segments avg_speed_kmh total_length_m estimated_time_s].
      split; [reflexivity|]. split; [|split].
      * unfold mean, Api.of_nat. rewrite sum_fold_right, length_map.
        reflexivity.
      * apply sum_fold_right.
      * rewrite Ht. ring.
Qed.

Lemma updated_route_returns_witness :
  exists u m,
    calculate_updated_route sample_store
      {| osrm_routes :=
           [{| osrm_geometry := Some (GeoJSON (Some two_points)) |}] |}
      sample_traffic = Ok u
    /\ route_metrics u = Some m
    /\ matched_segments m = List.length (updated_matched_traffic u).
Proof.
  destruct (updated_route_returns sample_store 0%nat
              {| osrm_routes :=
                   [{| osrm_geometry := Some (GeoJSON (Some two_points)) |}] |}
              sample_traffic) as (_ & H).
  destruct (H _ _ eq_refl eq_refl) as (u & E & _ & Em & _ & Hm).
  destruct Hm as (m & Hr & Hn & _).
  - intro Hnil. rewrite Hnil in Em. vm_compute in Em. discriminate Em.
  - exists u, m. repeat split; assumption.
Defined.

End UpdatedRouteFacts.

(** ** Route documents *)

Section ValidateFacts.

Import Json Documents DocTerms.

Local Open Scope string_scope.
Local Open Scope list_scope.

Lemma waypoint_valid_shape (waypoint : json) :
  waypoint_valid waypoint = Done true <-> waypoint_shape waypoint.
Proof.
  unfold waypoint_shape, mentions. split.
  - destruct waypoint as [| | | | |d]; try discriminate.
    cbn [waypoint_valid py_in getitem and_then].
    destruct (lookup "location" d) as [location|] eqn:Hl;
      cbn [negb and_then]; try discriminate.
    destruct (py_in "latitude" location) as [[|]|] eqn:Hlat;
      cbn [negb and_then]; try discriminate.
    destruct (py_in "longitude" location) as [[|]|] eqn:Hlon;
      cbn [negb and_then]; try discriminate.
    intros _. now exists d, location.
  - intros (d & location & -> & Hl & Hlat & Hlon).
    cbn [waypoint_valid py_in getitem and_then]. rewrite Hl.
    cbn [negb and_then]. rewrite Hlat. cbn [negb and_then].
    rewrite Hlon. reflexivity.
Qed.

Lemma waypoints_valid_shape (waypoints : list json) :
  waypoints_valid waypoints = Done true <-> Forall waypoint_shape waypoints.
Proof.
  induction waypoints as [|w ws IH]; cbn [waypoints_valid].
  - split; [constructor | reflexivity].
  - destruct (waypoint_valid w) as [[|]|] eqn:Hw; cbn [and_then].
    + rewrite IH. apply waypoint_valid_shape in Hw. split.
      * now constructor.
      * intro H. now inversion H.
    + split; [discriminate|]. intro H. inversion H as [|? ? Hs _]; subst.
      apply waypoint_valid_shape in Hs. congruence.
    + split; [discriminate|]. intro H. inversion H as [|? ? Hs _]; subst.
      apply waypoint_valid_shape in Hs. congruence.
Qed.

Lemma validate_route_data_shape (route_data : json) :
  _validate_route_data route_data = true <-> route_document_shape route_data.
Proof.
  unfold _validate_route_data, route_document_shape. split.
  - destruct route_data as [| | | | |d]; try discriminate.
    cbn [validate_route_data_body py_in getitem and_then].
    destruct (lookup "result" d) as [results|] eqn:Hres;
      cbn [negb and_then]; try discriminate.
    destruct results as [| | | |items|]; try discriminate.
    destruct items as [|result others]; cbn [List.length Nat.eqb];
      try discriminate.
    cbn [getitem_first and_then].
    destruct result as [| | |s|l|result];
      cbn [py_in getitem and_then]; try discriminate.
    { destruct (contains "waypoints" s); cbn [negb and_then];
        [|discriminate].
      destruct (contains "routes" s); cbn [negb and_then]; discriminate. }
    { destruct (existsb _ l); cbn [negb and_then]; [|discriminate].
      destruct (existsb _ l); cbn [negb and_then]; discriminate. }
    destruct (lookup "waypoints" result) as [waypoints|] eqn:Hw;
      cbn [negb and_then]; try discriminate.
    destruct (lookup "routes" result) as [routes|] eqn:Hr;
      cbn [negb and_then]; try discriminate.
    destruct waypoints as [| | | |ws|]; try discriminate.
    destruct (List.length ws <? 2)%nat eqn:Hlen; try discriminate.
    apply Nat.ltb_ge in Hlen.
    destruct (waypoints_valid ws) as [[|]|] eqn:Hv; cbn [negb and_then];
      try discriminate.
    apply waypoints_valid_shape in Hv.
    destruct routes as [| | | |rs|]; try discriminate.
    destruct rs as [|route rs]; cbn [List.length Nat.eqb]; try discriminate.
    cbn [getitem_first and_then].
    destruct route as [| | | | |route]; try discriminate.
    cbn [py_in and_then].
    destruct (lookup "duration" route) eqn:Hdu; cbn [negb and_then];
      try discriminate.
    destruct (lookup "distance" route) eqn:Hdi; cbn [negb and_then];
      try discriminate.
    intros _. exists d, result, others, ws, route, rs.
    split; [reflexivity|]. split; [exact Hres|]. split; [exact Hw|].
    split; [exact Hlen|]. split; [exact Hv|]. split; [exact Hr|].
    split; congruence.
  - intros (d & result & others & ws & route & rs
            & -> & Hres & Hw & Hlen & Hv & Hr & Hdu & Hdi).
    cbn [validate_route_data_body py_in getitem and_then]. rewrite Hres.
    cbn [negb and_then List.length Nat.eqb getitem_first py_in getitem].
    rewrite Hw, Hr. cbn [negb and_then].
    apply Nat.ltb_ge in Hlen. rewrite Hlen.
    apply waypoints_valid_shape in Hv. rewrite Hv.
    cbn [negb and_then List.length Nat.eqb getitem_first py_in].
    destruct (lookup "duration" route); [|contradiction].
    destruct (lookup "distance" route); [|contradiction].
    reflexivity.
Qed.

(** X20. Validation accepts exactly the documents of this shape: a
    dictionary whose [result] is a list that starts with a dictionary
    holding a list of at least two [waypoints], each a dictionary with
    a [location] in which [latitude] and [longitude] are found, and a
    list of [routes] that starts with a dictionary with the keys
    [duration] and [distance].  Every other document, and every
    document on which a check raises, is rejected. *)
Theorem validation_characterised (route_data : json) :
  _validate_route_data route_data = true <-> route_document_shape route_data.
Proof. exact (validate_route_data_shape route_data). Qed.

End ValidateFacts.

Section ConvertFacts.

Import Json Documents DocTerms DocSamples.

Local Open Scope string_scope.
Local Open Scope list_scope.

Lemma validation_characterised_witness :
  _validate_route_data posted_route_data = true.
Proof.
  apply (proj2 (validation_characterised posted_route_data)).
  unfold route_document_shape, posted_route_data.
  do 6 eexists. split; [reflexivity|].
  split; [reflexivity|]. split; [reflexivity|]. split; [cbn; lia|].
  split.
  - repeat constructor; unfold waypoint_shape, waypoint_at;
      do 2 eexists; repeat split.
  - split; [reflexivity|]. split; discriminate.
Defined.

Lemma convert_waypoint_located (count i : nat) (wp w : json) :
  convert_waypoint count i wp = Done w -> located wp w.
Proof.
  unfold convert_waypoint, located.
  destruct wp as [| | | | |d]; try discriminate.
  destruct (getitem (JDict d) "longitude") as [lon|] eqn:Hlon;
    cbn [and_then]; try discriminate.
  destruct (getitem (JDict d) "latitude") as [lat|] eqn:Hlat;
    cbn [and_then]; try discriminate.
  intro H. injection H as <-. now exists lon, lat.
Qed.

Lemma convert_waypoints_located (count i : nat) (wps ws : list json) :
  convert_waypoints count i wps = Done ws -> Forall2 located wps ws.
Proof.
  revert i ws. induction wps as [|wp wps IH]; intros i ws; cbn.
  - intro H. injection H as <-. constructor.
  - destruct (convert_waypoint count i wp) as [w|] eqn:Hw; cbn [and_then];
      try discriminate.
    destruct (convert_waypoints count (S i) wps) as [ws'|] eqn:Hws;
      cbn [and_then]; try discriminate.
    intro H. injection H as <-. constructor.
    + eapply convert_waypoint_located; eassumption.
    + eapply IH; eassumption.
Qed.

Lemma convert_result (wps : list json) (doc : json) :
  _convert_waypoints_to_route_data wps = Done doc ->
  exists ws,
    Forall2 located wps ws
    /\ doc = JDict [("resultCode", JStr "Ok");
                    ("result",
                     JList [JDict [("waypoints", JList ws);
                                   ("routes", JList [])]])].
Proof.
  unfold _convert_waypoints_to_route_data.
  destruct (convert_waypoints (List.length wps) 0 wps) as [ws|] eqn:H;
    cbn [and_then]; try discriminate.
  intro E. injection E as <-. exists ws. split; [|reflexivity].
  eapply convert_waypoints_located; eassumption.
Qed.

(** X21. No document produced by [_convert_waypoints_to_route_data]
    passes [_validate_route_data]: the converter leaves the list of
    routes empty, and validation requires a route. *)
Theorem converted_document_rejected (waypoints : list json) (doc : json) :
  _convert_waypoints_to_route_data waypoints = Done doc ->
  _validate_route_data doc = false.
Proof.
  intro H. destruct (convert_result _ _ H) as (ws & _ & ->).
  destruct (_validate_route_data _) eqn:V; [|reflexivity].
  apply validate_route_data_shape in V.
  destruct V as (d & result & others & wps' & route & rs
                 & Hd & Hres & Hw & _ & _ & Hr & _).
  injection Hd as <-. cbn in Hres. injection Hres as <- <-.
  cbn in Hr. discriminate Hr.
Qed.

Lemma converted_document_rejected_witness :
  exists doc,
    _convert_waypoints_to_route_data posted_waypoints = Done doc
    /\ _validate_route_data doc = false.
Proof.
  eexists. split; [reflexivity|].
  apply (converted_document_rejected posted_waypoints). reflexivity.
Defined.

Lemma located_last (wp w : json) (wps ws : list json) :
  located wp w -> Forall2 located wps ws ->
  located (List.last wps wp) (List.last ws w).
Proof.
  intros H0 H. revert wp w H0.
  induction H as [|wp' w' wps ws Hh Ht IH]; intros wp w H0; cbn.
  - exact H0.
  - destruct wps as [|wp'' wps]; inversion Ht; subst; [exact Hh|].
    now apply IH.
Qed.

(** X22. Converting waypoints and extracting them again gives back
    the coordinates: for two waypoints or more the extraction returns
    the latitude and longitude of the first waypoint and of the last
    one; for fewer it returns no coordinates. *)
Theorem waypoints_round_trip (waypoints : list json) (doc : json) :
  _convert_waypoints_to_route_data waypoints = Done doc ->
  ((List.length waypoints < 2)%nat ->
   extract_waypoints_from_route_data doc = Done None)
  /\ (forall first second others,
        waypoints = first :: second :: others ->
        exists start_lat start_lng end_lat end_lng,
          getitem first "latitude" = Done start_lat
          /\ getitem first "longitude" = Done start_lng
          /\ getitem (List.last (second :: others) first) "latitude"
             = Done end_lat
          /\ getitem (List.last (second :: others) first) "longitude"
             = Done end_lng
          /\ extract_waypoints_from_route_data doc
             = Done (Some ((start_lat, start_lng), (end_lat, end_lng)))).
Proof.
  intro H. destruct (convert_result _ _ H) as (ws & Hall & ->).
  unfold extract_waypoints_from_route_data.
  cbn [py_in lookup String.eqb Ascii.eqb Bool.eqb and_then getitem py_len
       List.length Nat.ltb Nat.leb getitem_first].
  split.
  - intro Hlen. rewrite (Forall2_length Hall) in Hlen.
    destruct ws as [|w [|w' ws]]; cbn in Hlen; try lia; reflexivity.
  - intros first second others ->.
    inversion Hall as [|? w0 ? ws0 H0 Hrest]; subst.
    inversion Hrest as [|? w1 ? ws1 H1 Hrest']; subst.
    cbn [List.length Nat.leb and_then getitem_first getitem_last].
    pose proof (located_last first w0 _ _ H0 Hrest) as Hlast.
    destruct H0 as (lon0 & lat0 & Hlon0 & Hlat0 & Hloc0).
    destruct Hlast as (lonl & latl & Hlonl & Hlatl & Hlocl).
    rewrite Hloc0. cbn [and_then]. rewrite Hlocl. cbn.
    exists lat0, lon0, latl, lonl. repeat split; assumption.
Qed.

Lemma waypoints_round_trip_witness :
  exists doc,
    _convert_waypoints_to_route_data posted_waypoints = Done doc
    /\ extract_waypoints_from_route_data doc
       = Done (Some ((JNum (375 # 10), JNum (1268 # 10)),
                     (JNum (376 # 10), JNum (1269 # 10)))).
Proof.
  eexists. split; [reflexivity|].
  destruct (waypoints_round_trip posted_waypoints _ eq_refl) as (_ & H).
  destruct (H _ _ _ eq_refl) as (a & b & c & d & Ha & Hb & Hc & Hd & E).
  cbn in Ha, Hb, Hc, Hd.
  injection Ha as <-. injection Hb as <-.
  injection Hc as <-. injection Hd as <-. exact E.
Defined.

End ConvertFacts.

(** ** Bounding boxes *)

Section BboxFacts.

Import Json RouteProcessor Documents DocTerms DocSamples.

Local Open Scope list_scope.





(** X24. [calculate_bbox_from_route_data] never returns a bounding
    box: the geometry of the first route is decoded to no coordinates,
    of which no minimum can be taken, so a document with a route that
    has a geometry raises [ValueError]; a document without [result]
    entries or without routes gives [None]. *)
Theorem bbox_from_route_data_never_returns (route_data : json) (buffer : Q) :
  (forall bbox,
     calculate_bbox_from_route_data route_data buffer <> Done (Some bbox))
  /\ (forall d result others route routes geometry,
        route_data = JDict d ->
        lookup "result" d = Some (JList (JDict result :: others)) ->
        lookup "routes" result = Some (JList (JDict route :: routes)) ->
        lookup "geometry" route = Some geometry ->
        calculate_bbox_from_route_data route_data buffer
        = Fail (Builtin ValueError))
  /\ (forall d,
        route_data = JDict d ->
        lookup "result" d = None ->
        calculate_bbox_from_route_data route_data buffer = Done None).
Proof.
  split; [|split].
  - intros bbox. unfold calculate_bbox_from_route_data.
    destruct (py_in "result" route_data) as [[|]|]; cbn [and_then];
      try discriminate.
    destruct (getitem route_data "result") as [results|]; cbn [and_then];
      try discriminate.
    destruct (py_len results) as [n|]; cbn [and_then]; try discriminate.
    destruct (0 <? n)%nat; try discriminate.
    destruct (getitem_first results) as [result|]; cbn [and_then];
      try discriminate.
    destruct (getitem result "routes") as [routes|]; cbn [and_then];
      try discriminate.
    destruct (py_len routes) as [k|]; cbn [and_then]; try discriminate.
    destruct (0 <? k)%nat; try discriminate.
    destruct (getitem_first routes) as [route|]; cbn [and_then];
      try discriminate.
    destruct (getitem route "geometry") as [geometry|]; cbn [and_then];
      discriminate.
  - intros d result others route routes geometry -> Hres Hr Hg.
    unfold calculate_bbox_from_route_data.
    cbn [py_in getitem and_then]. rewrite Hres.
    cbn [and_then py_len List.length Nat.ltb Nat.leb getitem_first getitem].
    rewrite Hr.
    cbn [and_then py_len List.length Nat.ltb Nat.leb getitem_first getitem].
    rewrite Hg. reflexivity.
  - intros d -> Hres. unfold calculate_bbox_from_route_data.
    cbn [py_in and_then]. now rewrite Hres.
Qed.

Lemma bbox_from_route_data_never_returns_witness :
  calculate_bbox_from_route_data posted_route_data (5 # 1000)
  = Fail (Builtin ValueError).
Proof.
  destruct (bbox_from_route_data_never_returns posted_route_data (5 # 1000))
    as (_ & H & _).
  eapply H; reflexivity.
Defined.

End BboxFacts.
